(** * Wan 2.1 helper scripts: a shallow embedding

    Two command-line scripts are modelled here:

    - [generate_integrated_fast.py]: a process-wide cache of preloaded
      generators ([_MODEL_CACHE], [get_generator]) and the generation
      facade ([WanFastGenerator.generate]);
    - [generate_video_from_image.py]: the reasoning-file parser
      ([read_reasoning_file]), the prompt-enhancement client, the
      external process invoker ([generate_video]) and the CLI [main].

    Python text is modelled as [str], a sequence of Unicode code points,
    bytes as [string], Python [int] as [Z], [dict] as [gmap], exceptions as an
    outcome type, object identity as an index into a heap, and the
    collaborators the scripts call (the [wan] library, the file system,
    the LLM endpoint, the child process) as parameters of a section whose
    answers may depend on the calls made before. *)

From Stdlib Require Import ZArith NArith Lia Ascii Strings.Byte.
From stdpp Require Import base gmap strings list pretty.

Set Default Proof Using "Type".

(** ** Python values shared by both scripts *)

Module Py.

(** *** Text *)

(** A character is its Unicode code point, and a [str] is a sequence of
    characters, as in Python: [len], slices and the search functions
    count code points. *)
Definition char : Type := N.

Inductive str : Type :=
| EmptyStr
| Str (c : char) (s : str).

(** Literals are written in UTF-8 and denote their code points; a
    literal that is not UTF-8 is refused. *)
Fixpoint utf8_continuation (n : nat) (acc : N) (l : list byte) : option (N * list byte) :=
  match n with
  | O => Some (acc, l)
  | S n' =>
      match l with
      | b :: l' =>
          let v := Byte.to_N b in
          if ((128 <=? v) && (v <? 192))%N
          then utf8_continuation n' (acc * 64 + (v - 128))%N l'
          else None
      | [] => None
      end
  end.

Fixpoint utf8_decode (fuel : nat) (l : list byte) : option str :=
  match fuel, l with
  | _, [] => Some EmptyStr
  | O, _ :: _ => None
  | S fuel', b :: l' =>
      let v := Byte.to_N b in
      let lead :=
        if (v <? 128)%N then Some (0, v)
        else if (v <? 192)%N then None
        else if (v <? 224)%N then Some (1, (v - 192)%N)
        else if (v <? 240)%N then Some (2, (v - 224)%N)
        else if (v <? 248)%N then Some (3, (v - 240)%N)
        else None in
      match lead with
      | None => None
      | Some (k, acc) =>
          match utf8_continuation k acc l' with
          | None => None
          | Some (c, rest) =>
              match utf8_decode fuel' rest with
              | None => None
              | Some s => Some (Str c s)
              end
          end
      end
  end.

Definition str_of_utf8 (l : list byte) : option str := utf8_decode (length l) l.

Definition utf8_byte (n : N) : byte := default x00 (Byte.of_N n).

Definition utf8_encode_char (c : char) : list byte :=
  if (c <? 128)%N then [utf8_byte c]
  else if (c <? 2048)%N then [utf8_byte (192 + c / 64); utf8_byte (128 + c mod 64)]%N
  else if (c <? 65536)%N then
    [utf8_byte (224 + c / 4096); utf8_byte (128 + (c / 64) mod 64);
     utf8_byte (128 + c mod 64)]%N
  else
    [utf8_byte (240 + c / 262144); utf8_byte (128 + (c / 4096) mod 64);
     utf8_byte (128 + (c / 64) mod 64); utf8_byte (128 + c mod 64)]%N.

Fixpoint utf8_of_str (s : str) : list byte :=
  match s with
  | EmptyStr => []
  | Str c s' => utf8_encode_char c ++ utf8_of_str s'
  end.

Definition char_of_utf8 (l : list byte) : option char :=
  match str_of_utf8 l with
  | Some (Str c EmptyStr) => Some c
  | _ => None
  end.

Definition utf8_of_char (c : char) : list byte := utf8_encode_char c.

Declare Scope str_scope.
Delimit Scope str_scope with str.
Bind Scope str_scope with str.
String Notation str str_of_utf8 utf8_of_str : str_scope.

Declare Scope chr_scope.
Delimit Scope chr_scope with chr.
Bind Scope chr_scope with char.
String Notation N char_of_utf8 utf8_of_char : chr_scope.

(** [s + t] *)
Fixpoint append (s t : str) : str :=
  match s with
  | EmptyStr => t
  | Str c s' => Str c (append s' t)
  end.
Arguments append : simpl never.

Infix "+:+" := append (at level 60, right associativity) : str_scope.
Open Scope str_scope.

Fixpoint str_to_list (s : str) : list char :=
  match s with
  | EmptyStr => []
  | Str c s' => c :: str_to_list s'
  end.

Fixpoint str_of_list (l : list char) : str :=
  match l with
  | [] => EmptyStr
  | c :: l' => Str c (str_of_list l')
  end.

#[global] Instance str_eq_dec : EqDecision str.
Proof. solve_decision. Defined.

#[global] Instance str_countable : Countable str.
Proof.
  refine (inj_countable' str_to_list str_of_list _).
  intros s. induction s as [|c s IH]; [done|]. cbn. by rewrite IH.
Defined.

(** The text of bytes that are all ASCII ([str(n)] of an int is). *)
Fixpoint of_ascii (s : string) : str :=
  match s with
  | EmptyString => EmptyStr
  | String a s' => Str (N_of_ascii a) (of_ascii s')
  end.

(** [c.isspace()], the characters [str.strip] removes: the Unicode
    white space of CPython's [_PyUnicode_IsWhitespace]. *)
Definition isspace (c : char) : bool :=
  (((9 <=? c) && (c <=? 13)) || ((28 <=? c) && (c <=? 32))
   || (c =? 133) || (c =? 160) || (c =? 5760)
   || ((8192 <=? c) && (c <=? 8202))
   || (c =? 8232) || (c =? 8233) || (c =? 8239) || (c =? 8287) || (c =? 12288))%N.

Fixpoint len (s : str) : nat :=
  match s with
  | EmptyStr => 0
  | Str _ s' => S (len s')
  end.

(** [s[:n]] and [s[n:]] for [0 <= n]. *)
Fixpoint take (n : nat) (s : str) : str :=
  match n, s with
  | S n', Str c s' => Str c (take n' s')
  | _, _ => EmptyStr
  end.

Fixpoint drop (n : nat) (s : str) : str :=
  match n, s with
  | S n', Str _ s' => drop n' s'
  | _, _ => s
  end.

(** [s.startswith(p)] *)
Fixpoint startswith (p s : str) : bool :=
  match p, s with
  | EmptyStr, _ => true
  | Str a p', Str b s' => if decide (a = b) then startswith p' s' else false
  | Str _ _, EmptyStr => false
  end.

(** [p in s] *)
Fixpoint contains (p s : str) : bool :=
  if startswith p s then true
  else match s with
       | EmptyStr => false
       | Str _ s' => contains p s'
       end.

(** [s.partition(sep)] when [sep] occurs: the text before the first
    occurrence and the text after it. *)
Fixpoint partition (sep s : str) : option (str * str) :=
  if startswith sep s then Some (EmptyStr, drop (len sep) s)
  else match s with
       | EmptyStr => None
       | Str c s' =>
           match partition sep s' with
           | Some (before, after) => Some (Str c before, after)
           | None => None
           end
       end.

(** [s.split(sep)] for a non-empty [sep]: cut at the occurrences of
    [sep], left to right, without overlap. Every cut removes at least
    one character, so [len s] rounds are enough. *)
Fixpoint split_rounds (n : nat) (sep s : str) : list str :=
  match n with
  | O => [s]
  | S n' =>
      match partition sep s with
      | None => [s]
      | Some (before, after) => before :: split_rounds n' sep after
      end
  end.

Definition split (sep s : str) : list str :=
  split_rounds (len s) sep s.

(** [sep.join(l)] *)
Fixpoint join (sep : str) (l : list str) : str :=
  match l with
  | [] => EmptyStr
  | [x] => x
  | x :: l' => x +:+ sep +:+ join sep l'
  end.

(** [s.replace(old, new)] for a non-empty [old]. *)
Definition replace (old new s : str) : str :=
  join new (split old s).

Fixpoint lstrip (s : str) : str :=
  match s with
  | EmptyStr => EmptyStr
  | Str c s' => if isspace c then lstrip s' else s
  end.

Fixpoint rstrip (s : str) : str :=
  match s with
  | EmptyStr => EmptyStr
  | Str c s' =>
      match rstrip s' with
      | EmptyStr => if isspace c then EmptyStr else Str c EmptyStr
      | r => Str c r
      end
  end.

(** [s.strip()] *)
Definition strip (s : str) : str := rstrip (lstrip s).

(** Truth value of a string and of an optional string ([None] and the
    empty string are false). *)
Definition truthy (s : str) : bool :=
  match s with EmptyStr => false | Str _ _ => true end.

Definition truthy_opt (o : option str) : bool :=
  match o with None => false | Some s => truthy s end.

(** [str(x)] inside an f-string, for an optional string and an int. *)
Definition format_opt (o : option str) : str :=
  match o with None => "None" | Some s => s end.

Definition format_int (n : Z) : str := of_ascii (pretty n).

(** [c * n] for a one-character string [c]. *)
Fixpoint repeat_char (c : char) (n : nat) : str :=
  match n with
  | O => EmptyStr
  | S n' => Str c (repeat_char c n')
  end.

(** *** Exceptions and outcomes *)

(** The exception classes the scripts raise, catch or let through.
    [SystemExit] and [KeyboardInterrupt] derive from [BaseException]
    only; everything else derives from [Exception]. *)
Inductive exn : Type :=
| KeyError (key : str)
| NotImplementedError (msg : str)
| SystemExit (code : Z)
| KeyboardInterrupt
| OtherError (cls : str) (msg : str).

(** [isinstance(e, Exception)], the test of [except Exception]. *)
Definition is_Exception (e : exn) : bool :=
  match e with
  | SystemExit _ | KeyboardInterrupt => false
  | KeyError _ | NotImplementedError _ | OtherError _ _ => true
  end.

Inductive outcome (A : Type) : Type :=
| Return (a : A)
| Raise (e : exn).
Arguments Return {A} a.
Arguments Raise {A} e.

(** The exit status of the interpreter, as a POSIX parent sees it, when
    the script body finishes with the given outcome: 0 on a normal
    return, the low eight bits of the code carried by [SystemExit] (a
    code in the range of a C [int], as every return code of a child
    is), and 1 for a traceback. *)
Definition exit_status {A : Type} (o : outcome A) : Z :=
  match o with
  | Return _ => 0
  | Raise (SystemExit c) => c mod 256
  | Raise _ => 1
  end.

End Py.

(** ** [generate_integrated_fast.py] *)

Module Fast.
Import Py.

(** [sys.maxsize] of a 64-bit CPython. *)
Definition sys_maxsize : Z := 2 ^ 63 - 1.

Section Model.

(** Values of the [wan] library, which the script only passes on:
    a task configuration, a loaded pipeline, a tensor, a float. *)
Context {Config Pipeline Tensor Float : Type}.

(** *** Objects, the module-level cache and the log of effects *)

(** The attributes [__init__] sets on a generator. *)
Record WanFastGenerator : Type := mkWanFastGenerator {
  task : str;
  ckpt_dir : option str;
  device_id : Z;
  cfg : Config;
  pipeline : Pipeline
}.

(** The keyword arguments of [WanFastGenerator.generate]. *)
Record GenerateArgs : Type := mkGenerateArgs {
  prompt : str;
  src_ref_images : option str;
  save_file : option str;
  size : str;
  frame_num : Z;
  sample_steps : Z;
  sample_shift : Float;
  sample_solver : str;
  guide_scale : Float;
  base_seed : Z;
  offload_model : bool
}.

(** What the script calls, newest event first. [BasicConfig], [LogInfo]
    and [LogRefImages] are calls into [logging] (whether or not its
    configuration lets the record through); the others are calls into
    the [wan] library, [random] and [datetime]. *)
Inductive event : Type :=
| BasicConfig
| LogInfo (msg : str)
| LogRefImages (l : list (list str))
| CallWanVace (c : Config) (ckpt : option str) (dev : Z)
| CallRandint (lo hi : Z)
| CallPrepareSource (p : Pipeline) (refs : option (list (list str)))
    (frames : Z) (res : Z * Z) (dev : Z)
| CallGenerate (p : Pipeline) (text : str) (src : Tensor * Tensor * Tensor)
    (res : Z * Z) (frames : Z) (shift : Float) (solver : str)
    (steps : Z) (guide : Float) (seed : Z) (offload : bool)
| CallNow
| CallCacheVideo (video : Tensor) (file : str) (fps : Z).

(** The interpreter state the script can see: the generator objects
    created so far (an object's identity is its index; an object
    whose [__init__] raised is unreachable and not recorded), the
    global [_MODEL_CACHE], which maps a key to a reference, and the
    log. *)
Record state : Type := mkState {
  heap : list WanFastGenerator;
  MODEL_CACHE : gmap str nat;
  trace : list event
}.

Definition M (A : Type) : Type := state -> outcome A * state.

Definition ret {A : Type} (a : A) : M A := fun s => (Return a, s).

Definition raise {A : Type} (e : exn) : M A := fun s => (Raise e, s).

Definition bind {A B : Type} (m : M A) (k : A -> M B) : M B :=
  fun s =>
    match m s with
    | (Return a, s') => k a s'
    | (Raise e, s') => (Raise e, s')
    end.

Definition emit (e : event) : M unit :=
  fun s => (Return tt, mkState (heap s) (MODEL_CACHE s) (e :: trace s)).

Definition is_logging (e : event) : bool :=
  match e with
  | BasicConfig | LogInfo _ | LogRefImages _ => true
  | _ => false
  end.

(** The calls into collaborators made so far, newest first. *)
Definition interactions (l : list event) : list event :=
  List.filter (fun e => negb (is_logging e)) l.

(** A call into a collaborator: it is recorded, and its result may
    depend on the calls made before it. *)
Definition call {A : Type} (e : event) (f : list event -> outcome A) : M A :=
  fun s => (f (interactions (trace s)),
            mkState (heap s) (MODEL_CACHE s) (e :: trace s)).

(** [d[k]] on a module-level table: [KeyError] when [k] is absent. *)
Definition getitem {V : Type} (d : gmap str V) (k : str) : M V :=
  match d !! k with
  | Some v => ret v
  | None => raise (KeyError k)
  end.

(** *** Collaborators *)

Variable sample_fps : Config -> Z.
Variable WAN_CONFIGS : gmap str Config.
Variable SIZE_CONFIGS : gmap str (Z * Z).
(** [wan.WanVace(config, checkpoint_dir, device_id, rank=0, ...)] *)
Variable WanVace :
  list event -> Config -> option str -> Z -> outcome Pipeline.
Variable prepare_source :
  list event -> Pipeline -> option (list (list str)) -> Z -> Z * Z -> Z ->
  outcome (Tensor * Tensor * Tensor).
Variable pipeline_generate :
  list event -> Pipeline -> str -> Tensor * Tensor * Tensor -> Z * Z -> Z ->
  Float -> str -> Z -> Float -> Z -> bool -> outcome Tensor.
Variable cache_video : list event -> Tensor -> str -> Z -> outcome unit.
(** [datetime.now().strftime("%Y%m%d_%H%M%S")] *)
Variable now_strftime : list event -> str.
(** The raw draw behind [random.randint]. *)
Variable random_draw : list event -> Z.

(** [random.randint(lo, hi)]: a draw reduced to [lo..hi]. *)
Definition randint (lo hi : Z) : M Z :=
  call (CallRandint lo hi)
       (fun h => Return (lo + random_draw h mod (hi - lo + 1))%Z).

Definition logging_info (msg : str) : M unit := emit (LogInfo msg).

Definition _init_logging : M unit := emit BasicConfig.

(** *** [WanFastGenerator.__init__] *)

(** Returns the attributes of the new object. *)
Definition WanFastGenerator_init
    (task_ : str) (ckpt_dir_ : option str) (device_id_ : Z)
  : M WanFastGenerator :=
  bind (getitem WAN_CONFIGS task_) (fun cfg_ =>
  bind _init_logging (fun _ =>
  bind (logging_info ("Initializing WanFastGenerator for task: " +:+ task_)) (fun _ =>
  bind (logging_info ("Checkpoint directory: " +:+ format_opt ckpt_dir_)) (fun _ =>
  if contains "vace" task_ then
    bind (logging_info "Loading VACE pipeline (this may take a while)...") (fun _ =>
    bind (call (CallWanVace cfg_ ckpt_dir_ device_id_)
               (fun h => WanVace h cfg_ ckpt_dir_ device_id_)) (fun pipeline_ =>
    bind (logging_info "✓ VACE pipeline loaded successfully!") (fun _ =>
    ret (mkWanFastGenerator task_ ckpt_dir_ device_id_ cfg_ pipeline_))))
  else
    raise (NotImplementedError
             ("Task " +:+ task_ +:+ " not yet supported in fast mode")))))).

(** [WanFastGenerator(...)]: run [__init__]; the object gets its
    identity once its attributes are set. *)
Definition new_WanFastGenerator
    (task_ : str) (ckpt_dir_ : option str) (device_id_ : Z) : M nat :=
  bind (WanFastGenerator_init task_ ckpt_dir_ device_id_) (fun obj s =>
    (Return (length (heap s)),
     mkState (heap s ++ [obj]) (MODEL_CACHE s) (trace s))).

(** *** [WanFastGenerator.generate] *)

Definition generate (self : WanFastGenerator) (a : GenerateArgs) : M str :=
  bind (logging_info ("Generating video with prompt: " +:+ prompt a)) (fun _ =>
  bind (if (base_seed a <? 0)%Z then randint 0 sys_maxsize
        else ret (base_seed a)) (fun base_seed_ =>
  bind (if truthy_opt (src_ref_images a) then
          let l := [split "," (format_opt (src_ref_images a))] in
          bind (emit (LogRefImages l)) (fun _ => ret (Some l))
        else ret None) (fun ref_images_list =>
  bind (getitem SIZE_CONFIGS (size a)) (fun res =>
  bind (call (CallPrepareSource (pipeline self) ref_images_list
                (frame_num a) res (device_id self))
             (fun h => prepare_source h (pipeline self) ref_images_list
                         (frame_num a) res (device_id self))) (fun src =>
  bind (logging_info "Generating video...") (fun _ =>
  bind (getitem SIZE_CONFIGS (size a)) (fun res' =>
  bind (call (CallGenerate (pipeline self) (prompt a) src res' (frame_num a)
                (sample_shift a) (sample_solver a) (sample_steps a)
                (guide_scale a) base_seed_ (offload_model a))
             (fun h => pipeline_generate h (pipeline self) (prompt a) src res'
                         (frame_num a) (sample_shift a) (sample_solver a)
                         (sample_steps a) (guide_scale a) base_seed_
                         (offload_model a))) (fun video =>
  bind (match save_file a with
        | Some f => ret f
        | None =>
            bind (call CallNow (fun h => Return (now_strftime h)))
                 (fun formatted_time =>
            let formatted_prompt :=
              take 50 (replace "/" "_" (replace " " "_" (prompt a))) in
            ret (task self +:+ "_" +:+ size a +:+ "_" +:+ formatted_prompt
                   +:+ "_" +:+ formatted_time +:+ ".mp4"))
        end) (fun save_file_ =>
  bind (logging_info ("Saving generated video to " +:+ save_file_)) (fun _ =>
  bind (call (CallCacheVideo video save_file_ (sample_fps (cfg self)))
             (fun h => cache_video h video save_file_ (sample_fps (cfg self))))
       (fun _ =>
  bind (logging_info "✓ Video generation complete!") (fun _ =>
  ret save_file_)))))))))))).

(** *** [get_generator] *)

(** [f"{task}_{ckpt_dir}_{device_id}"] *)
Definition cache_key (task_ : str) (ckpt_dir_ : option str)
    (device_id_ : Z) : str :=
  task_ +:+ "_" +:+ format_opt ckpt_dir_ +:+ "_" +:+ format_int device_id_.

(** [_MODEL_CACHE[k] = v] *)
Definition cache_store (k : str) (v : nat) : M unit :=
  fun s => (Return tt, mkState (heap s) (<[k := v]> (MODEL_CACHE s)) (trace s)).

(** [_MODEL_CACHE[k]] *)
Definition cache_load (k : str) : M nat :=
  fun s => getitem (MODEL_CACHE s) k s.

(** [k not in _MODEL_CACHE] *)
Definition cache_misses (k : str) : M bool :=
  fun s => (Return (bool_decide (MODEL_CACHE s !! k = None)), s).

Definition get_generator
    (task_ : str) (ckpt_dir_ : option str) (device_id_ : Z) : M nat :=
  let key := cache_key task_ ckpt_dir_ device_id_ in
  bind (cache_misses key) (fun miss =>
  bind (if miss then
          bind (logging_info "Creating new generator (first run - will be slow)")
               (fun _ =>
          bind (new_WanFastGenerator task_ ckpt_dir_ device_id_) (fun g =>
          cache_store key g))
        else logging_info "Using cached generator (fast!)") (fun _ =>
  cache_load key)).

(** *** Observations on a log *)

Definition is_construction (e : event) : bool :=
  match e with CallWanVace _ _ _ => true | _ => false end.

Definition is_creation_notice (e : event) : bool :=
  match e with
  | LogInfo msg =>
      bool_decide (msg = "Creating new generator (first run - will be slow)")
  | _ => false
  end.

Definition is_pipeline_work (e : event) : bool :=
  match e with
  | CallPrepareSource _ _ _ _ _ => true
  | CallGenerate _ _ _ _ _ _ _ _ _ _ _ => true
  | _ => false
  end.

(** How many pipelines were loaded in a log. *)
Definition constructions (l : list event) : nat :=
  length (List.filter is_construction l).

(** How often the construction branch of [get_generator] was entered. *)
Definition creation_attempts (l : list event) : nat :=
  length (List.filter is_creation_notice l).

(** The resolutions handed to the pipeline, newest first. *)
Definition resolutions_used (l : list event) : list (Z * Z) :=
  omap (fun e => match e with
                 | CallPrepareSource _ _ _ res _ => Some res
                 | CallGenerate _ _ _ res _ _ _ _ _ _ _ => Some res
                 | _ => None
                 end) l.

(** The seeds handed to the pipeline's [generate], newest first. *)
Definition seeds_passed (l : list event) : list Z :=
  omap (fun e => match e with
                 | CallGenerate _ _ _ _ _ _ _ _ _ seed _ => Some seed
                 | _ => None
                 end) l.

End Model.

End Fast.

(** ** [generate_video_from_image.py] *)

Module FromImage.
Import Py.

(** The line feed character, as a string. *)
Definition nl : str := Str 10%N EmptyStr.

Definition rule (c : char) : str := repeat_char c 80.

(** [str(e)] in the message printed by the [except] clause. *)
Definition format_exn (e : exn) : str :=
  match e with
  | KeyError k => "'" +:+ k +:+ "'"
  | NotImplementedError msg => msg
  | SystemExit c => format_int c
  | KeyboardInterrupt => EmptyStr
  | OtherError _ msg => msg
  end.

(** *** [read_reasoning_file]: the text after the file has been read *)

Definition END_OF_REASONING : str := "--- END OF REASONING ---".

Definition CUE_PHRASE : str := "Generating image with prompt:".

Record ReasoningData : Type := mkReasoningData {
  reasoning : str;
  original_prompt : str
}.

(** The test of the outer loop on one line. *)
Definition is_cue_line (line : str) : bool :=
  contains CUE_PHRASE line || startswith "Cartoon" (strip line).

(** The inner loop started at the cue line: the stripped lines that
    are not empty, from that line to the last one. *)
Definition collect_prompt_lines (lines : list str) : list str :=
  List.filter truthy (List.map strip lines).

(** The outer loop with its [break]: the prompt built at the first cue
    line, or the initial empty string when no line is a cue line. *)
Fixpoint scan_for_prompt (lines : list str) : str :=
  match lines with
  | [] => EmptyStr
  | line :: rest =>
      if is_cue_line line then
        strip (replace CUE_PHRASE EmptyStr
                 (join " " (collect_prompt_lines lines)))
      else scan_for_prompt rest
  end.

(** From [lines = remaining.split(...)] to the fallback
    [if not original_prompt: original_prompt = remaining]. *)
Definition extract_prompt (remaining : str) : str :=
  let lines := split nl remaining in
  let found := scan_for_prompt lines in
  if truthy found then found else remaining.

Definition split_reasoning (content : str) : ReasoningData :=
  let parts := split END_OF_REASONING content in
  match parts with
  | part0 :: part1 :: _ =>
      let remaining := strip part1 in
      mkReasoningData (strip part0) (extract_prompt remaining)
  | _ =>
      mkReasoningData (take (len content / 2) content)
                      (drop (len content / 2) content)
  end.

(** *** The request sent to the hosted model *)

Definition media_type_map : gmap str str :=
  list_to_map [(".png", "image/png"); (".jpg", "image/jpeg");
               (".jpeg", "image/jpeg"); (".gif", "image/gif");
               (".webp", "image/webp")].

Definition system_prompt : str :=
"You are an expert in video generation and creative direction. Your task is to take a static image and its creation reasoning, and generate an engaging video generation prompt that brings the image to life with motion, dynamics, and cinematic appeal.

Key principles:
1. Preserve the core visual elements and style from the original image
2. Add motion, camera movements, and dynamic elements appropriate for video
3. Consider cinematography: camera angles, movements (pan, zoom, tracking), lighting changes
4. Add temporal elements: how things change over time, sequences of actions
5. Maintain the tone and atmosphere of the original
6. Keep the prompt concise but detailed (50-100 words)
7. Make it suitable for state-of-the-art video generation models".

Definition user_prompt (reasoning_ original_prompt_ : str) : str :=
"I have a generated image and want to create an interesting video from it.

ORIGINAL IMAGE CREATION REASONING:
" +:+ reasoning_ +:+ "

ORIGINAL IMAGE PROMPT:
" +:+ original_prompt_ +:+ "

Please analyze the image and create an optimized video generation prompt that:
1. Captures the essence and style of the static image
2. Adds appropriate motion and camera dynamics to make it cinematic
3. Maintains visual consistency with the original
4. Creates an engaging 3-5 second video narrative
5. Is optimized for the Wan 2.1 video generation model

OUTPUT FORMAT:
Provide ONLY the video generation prompt, nothing else. No explanations, no preamble, just the prompt text.".

(** The arguments of [client.messages.create]; the temperature 0.7 is
    kept as the fraction 7/10. *)
Record MessageRequest : Type := mkMessageRequest {
  api_key_used : option str;
  model : str;
  max_tokens : Z;
  temperature : Z * Z;
  system : str;
  media_type : str;
  image_data : str;
  user_text : str
}.

(** The namespace [parse_known_args] returns. *)
Record Args : Type := mkArgs {
  image : str;
  text : str;
  api_key : option str;
  task : str;
  size : str;
  ckpt_dir : str;
  output_dir : option str;
  skip_claude : bool
}.

(** What the script does to the outside, newest event first. *)
Inductive event : Type :=
| Print (msg : str)
| PathExists (path : str)
| ReadText (path : str)
| ReadBytes (path : str)
| MessagesCreate (req : MessageRequest)
| SubprocessRun (cmd : list str).

Definition M (A : Type) : Type := list event -> outcome A * list event.

Definition ret {A : Type} (a : A) : M A := fun h => (Return a, h).

Definition raise {A : Type} (e : exn) : M A := fun h => (Raise e, h).

Definition bind {A B : Type} (m : M A) (k : A -> M B) : M B :=
  fun h =>
    match m h with
    | (Return a, h') => k a h'
    | (Raise e, h') => (Raise e, h')
    end.

Definition seq {A : Type} (m : M unit) (k : M A) : M A := bind m (fun _ => k).

Definition print (msg : str) : M unit := fun h => (Return tt, Print msg :: h).

Definition is_print (e : event) : bool :=
  match e with Print _ => true | _ => false end.

(** The calls into collaborators made so far, newest first. *)
Definition interactions (l : list event) : list event :=
  List.filter (fun e => negb (is_print e)) l.

(** A call into a collaborator: it is recorded, and its result may
    depend on the calls made before it. *)
Definition call {A : Type} (e : event) (f : list event -> outcome A) : M A :=
  fun h => (f (interactions h), e :: h).

(** [sys.exit(code)] *)
Definition sys_exit {A : Type} (code : Z) : M A := raise (SystemExit code).

(** [try: body  except Exception as e: handler(e)] *)
Definition try_except {A : Type} (body : M A) (handler : exn -> M A) : M A :=
  fun h =>
    match body h with
    | (Return a, h') => (Return a, h')
    | (Raise e, h') => if is_Exception e then handler e h' else (Raise e, h')
    end.

(** [a or b] on optional strings. *)
Definition or_else (a b : option str) : option str :=
  if truthy_opt a then a else b.

Definition is_network_call (e : event) : bool :=
  match e with MessagesCreate _ => true | _ => false end.

Definition is_subprocess_run (e : event) : bool :=
  match e with SubprocessRun _ => true | _ => false end.

Section Model.

(** *** Collaborators *)

Variable path_exists : list event -> str -> bool.
Variable read_text : list event -> str -> outcome str.
Variable read_bytes : list event -> str -> outcome string.
Variable b64encode : string -> str.
(** [Path(p).suffix.lower()] *)
Variable suffix_lower : str -> str.
(** [os.environ.get("ANTHROPIC_API_KEY")] *)
Variable environ_ANTHROPIC_API_KEY : option str.
(** [client.messages.create(...).content[0].text] *)
Variable messages_create : list event -> MessageRequest -> outcome str.
(** [subprocess.run(cmd, cwd=os.getcwd()).returncode] *)
Variable subprocess_run : list event -> list str -> outcome Z.
Variable sys_executable : str.

Definition encode_image_to_base64 (image_path : str) : M str :=
  bind (call (ReadBytes image_path) (fun h => read_bytes h image_path))
       (fun bytes => ret (b64encode bytes)).

Definition read_reasoning_file (text_path : str) : M ReasoningData :=
  bind (call (ReadText text_path) (fun h => read_text h text_path))
       (fun content => ret (split_reasoning content)).

Definition generate_video_prompt_with_claude
    (image_path reasoning_ original_prompt_ : str)
    (api_key_ : option str) : M str :=
  let ext := suffix_lower image_path in
  let media_type_ := default "image/png" (media_type_map !! ext) in
  bind (encode_image_to_base64 image_path) (fun image_data_ =>
  let req := mkMessageRequest api_key_ "claude-3-5-sonnet-20241022" 500 (7, 10)%Z
               system_prompt media_type_ image_data_
               (user_prompt reasoning_ original_prompt_) in
  bind (call (MessagesCreate req) (fun h => messages_create h req)) (fun text_ =>
  ret (strip text_))).

(** *** [generate_video] *)

Definition build_cmd (prompt_ task_ size_ ckpt_dir_ : str)
    (output_dir_ : option str) (additional_args : option (list str))
  : list str :=
  let cmd := [sys_executable; "generate.py"; "--task"; task_; "--size"; size_;
              "--ckpt_dir"; ckpt_dir_; "--prompt"; prompt_] in
  let cmd := if truthy_opt output_dir_
             then cmd ++ ["--output_dir"; format_opt output_dir_] else cmd in
  match additional_args with
  | Some (x :: l) => cmd ++ x :: l
  | _ => cmd
  end.

Definition generate_video (prompt_ task_ size_ ckpt_dir_ : str)
    (output_dir_ : option str) (additional_args : option (list str))
  : M unit :=
  let cmd := build_cmd prompt_ task_ size_ ckpt_dir_ output_dir_ additional_args in
  seq (print (nl +:+ rule "=")) (
  seq (print "EXECUTING VIDEO GENERATION COMMAND:") (
  seq (print (join " " cmd)) (
  seq (print (rule "=" +:+ nl)) (
  bind (call (SubprocessRun cmd) (fun h => subprocess_run h cmd)) (fun returncode =>
  if decide (returncode <> 0%Z) then
    seq (print (nl +:+ "✗ Video generation failed with return code "
                  +:+ format_int returncode))
        (sys_exit returncode)
  else
    print (nl +:+ "✓ Video generation completed successfully!")))))).

(** *** [main] *)

(** The [if args.skip_claude: ... else: try ... except ...] block; its
    value is the local [video_prompt]. *)
Definition choose_video_prompt (args : Args) (api_key_ : option str)
    (data : ReasoningData) : M str :=
  if skip_claude args then
    seq (print (nl +:+ "⏭️  Skipping Claude - using original prompt for video generation"))
        (ret (original_prompt data))
  else
    seq (print (nl +:+ rule "-")) (
    seq (print "GENERATING VIDEO PROMPT WITH CLAUDE...") (
    seq (print (rule "-")) (
    try_except
      (bind (generate_video_prompt_with_claude (image args) (reasoning data)
               (original_prompt data) api_key_) (fun video_prompt =>
       seq (print (nl +:+ "✓ Claude generated video prompt:" +:+ nl)) (
       seq (print (rule "=")) (
       seq (print video_prompt) (
       seq (print (rule "=")) (
       ret video_prompt))))))
      (fun e =>
       seq (print (nl +:+ "✗ Error calling Claude API: " +:+ format_exn e)) (
       seq (print "Falling back to original prompt...") (
       ret (original_prompt data))))))).

(** The body of [main] after [parse_known_args]. The call of
    [generate_video] is commented out in the source, so it is absent
    here. Python's [main] returns [None]; the model returns the final
    value of the local [video_prompt] so that it can be observed. *)
Definition main (args : Args) (unknown_args : list str) : M str :=
  bind (call (PathExists (image args)) (fun h => Return (path_exists h (image args))))
       (fun image_found =>
  if negb image_found then
    seq (print ("✗ Error: Image file not found: " +:+ image args)) (sys_exit 1)
  else
  bind (call (PathExists (text args)) (fun h => Return (path_exists h (text args))))
       (fun text_found =>
  if negb text_found then
    seq (print ("✗ Error: Text file not found: " +:+ text args)) (sys_exit 1)
  else
  let api_key_ := or_else (api_key args) environ_ANTHROPIC_API_KEY in
  if negb (truthy_opt api_key_) && negb (skip_claude args) then
    seq (print "✗ Error: Anthropic API key required. Set --api-key or ANTHROPIC_API_KEY env var") (
    seq (print "   Or use --skip-claude to use the original prompt without Claude enhancement") (
    sys_exit 1))
  else
  seq (print (rule "=")) (
  seq (print "VIDEO GENERATION FROM IMAGE AND REASONING") (
  seq (print (rule "=")) (
  seq (print (nl +:+ "📸 Image: " +:+ image args)) (
  seq (print ("📝 Text: " +:+ text args)) (
  seq (print ("🎬 Task: " +:+ task args)) (
  seq (print ("📐 Size: " +:+ size args)) (
  seq (print (nl +:+ rule "-")) (
  seq (print "READING REASONING AND ORIGINAL PROMPT...") (
  seq (print (rule "-")) (
  bind (read_reasoning_file (text args)) (fun data =>
  seq (print (nl +:+ "📖 Original prompt length: "
                +:+ format_int (Z.of_nat (len (original_prompt data)))
                +:+ " characters")) (
  seq (print ("🧠 Reasoning length: "
                +:+ format_int (Z.of_nat (len (reasoning data)))
                +:+ " characters")) (
  seq (print (nl +:+ "📖 Original prompt:" +:+ nl +:+ original_prompt data)) (
  bind (choose_video_prompt args api_key_ data) (fun video_prompt =>
  seq (print (nl +:+ rule "-")) (
  seq (print "GENERATING VIDEO...") (
  seq (print (rule "-")) (
  seq (print (nl +:+ rule "=")) (
  seq (print "✓ COMPLETE!") (
  seq (print (rule "=")) (
  ret video_prompt))))))))))))))))))))))).

End Model.

End FromImage.

(** ** The parser as the specification words it *)

Module Specified.
Import Py FromImage.

(** With a marker, the reasoning is all text before the first marker,
    trimmed, and the prompt is built by the cue-line logic from the
    remainder, which is used entire when none of its lines is a cue
    line; without a marker the text is cut at its midpoint. *)
Definition split_reasoning_as_specified (content : str) : ReasoningData :=
  match partition END_OF_REASONING content with
  | Some (before, remainder) =>
      let lines := split nl remainder in
      mkReasoningData (strip before)
        (if existsb is_cue_line lines then scan_for_prompt lines else remainder)
  | None =>
      mkReasoningData (take (len content / 2) content)
                      (drop (len content / 2) content)
  end.

End Specified.

(** ** Concrete collaborators, for running the model *)

Module Samples.
Import Py.

(** A configuration is its frame rate, a pipeline is named after its
    checkpoint directory, tensors carry nothing, floats are integers. *)
Definition fast_event : Type := @Fast.event Z str unit Z.

Definition fast_state : Type := @Fast.state Z str unit Z.

(** The default tasks of the two scripts. *)
Definition WAN_CONFIGS : gmap str Z :=
  list_to_map [("vace-1.3B", 16%Z); ("t2v-14B", 16%Z)].

(** The default sizes of the two scripts. *)
Definition SIZE_CONFIGS : gmap str (Z * Z) :=
  list_to_map [("832*480", (832, 480)%Z); ("1280*720", (1280, 720)%Z)].

Definition WanVace_loads (h : list fast_event) (c : Z) (ckpt : option str)
    (dev : Z) : outcome str :=
  Return (format_opt ckpt).

Definition WanVace_fails (h : list fast_event) (c : Z) (ckpt : option str)
    (dev : Z) : outcome str :=
  Raise (OtherError "FileNotFoundError" "no checkpoint in this directory").

Definition prepare_source (h : list fast_event) (p : str)
    (refs : option (list (list str))) (frames : Z) (res : Z * Z) (dev : Z)
  : outcome (unit * unit * unit) :=
  Return (tt, tt, tt).

Definition pipeline_generate (h : list fast_event) (p text : str)
    (src : unit * unit * unit) (res : Z * Z) (frames shift : Z) (solver : str)
    (steps guide seed : Z) (offload : bool) : outcome unit :=
  Return tt.

Definition cache_video (h : list fast_event) (video : unit) (file : str)
    (fps : Z) : outcome unit :=
  Return tt.

Definition now_strftime (h : list fast_event) : str := "20250101_120000".

Definition random_draw (h : list fast_event) : Z := (-5)%Z.

(** The process right after the module was loaded. *)
Definition fresh : fast_state := Fast.mkState [] ∅ [].

Definition vace_generator : @Fast.WanFastGenerator Z str :=
  Fast.mkWanFastGenerator "vace-1.3B" (Some "./Wan2.1-VACE-1.3B") 0%Z 16%Z
    "./Wan2.1-VACE-1.3B".

Definition request (size_ : str) (seed : Z) : @Fast.GenerateArgs Z :=
  Fast.mkGenerateArgs "a fox" None (Some "out.mp4") size_ 41%Z 25%Z 16%Z "unipc" 5%Z
    seed true.

(** A reasoning file with one marker and a cue line. *)
Definition document : str :=
  "Plan the scene." +:+ FromImage.nl +:+ "--- END OF REASONING ---" +:+ FromImage.nl
    +:+ "Generating image with prompt:" +:+ FromImage.nl
    +:+ "Cartoon fox in snow" +:+ FromImage.nl.

Definition every_file_exists (h : list FromImage.event) (p : str) : bool := true.

Definition no_file_exists (h : list FromImage.event) (p : str) : bool := false.

Definition read_document (h : list FromImage.event) (p : str) : outcome str :=
  Return document.

Definition read_image (h : list FromImage.event) (p : str) : outcome string :=
  Return "PNG"%string.

Definition b64encode (bytes : string) : str := "UE5H".

Definition suffix_lower (p : str) : str := ".png".

Definition endpoint_down (h : list FromImage.event) (req : FromImage.MessageRequest)
  : outcome str :=
  Raise (OtherError "APIConnectionError" "Connection error.").

Definition child_exits_7 (h : list FromImage.event) (cmd : list str) : outcome Z :=
  Return 7%Z.

(** A child killed by signal 9: [returncode] is [-9]. *)
Definition child_killed_by_signal_9 (h : list FromImage.event) (cmd : list str)
  : outcome Z :=
  Return (-9)%Z.

Definition cli_args : FromImage.Args :=
  FromImage.mkArgs "video_gen_prompts/generated_image.png"
    "video_gen_prompts/prompt+reasoning.txt" None "t2v-14B" "1280*720"
    "./Wan2.1-T2V-14B" None false.

End Samples.

(** ** [generate_integrated_fast.py]: the command line *)

Module FastCli.
Import Py.

Section Model.

Context {Config Pipeline Tensor Float : Type}.

Variable sample_fps : Config -> Z.
Variable WAN_CONFIGS : gmap str Config.
Variable SIZE_CONFIGS : gmap str (Z * Z).
Variable WanVace :
  list (@Fast.event Config Pipeline Tensor Float) ->
  Config -> option str -> Z -> outcome Pipeline.
Variable prepare_source :
  list (@Fast.event Config Pipeline Tensor Float) ->
  Pipeline -> option (list (list str)) -> Z -> Z * Z -> Z ->
  outcome (Tensor * Tensor * Tensor).
Variable pipeline_generate :
  list (@Fast.event Config Pipeline Tensor Float) ->
  Pipeline -> str -> Tensor * Tensor * Tensor -> Z * Z -> Z ->
  Float -> str -> Z -> Float -> Z -> bool -> outcome Tensor.
Variable cache_video :
  list (@Fast.event Config Pipeline Tensor Float) ->
  Tensor -> str -> Z -> outcome unit.
Variable now_strftime : list (@Fast.event Config Pipeline Tensor Float) -> str.
Variable random_draw : list (@Fast.event Config Pipeline Tensor Float) -> Z.

(** The namespace [parse_args] returns; [--ckpt_dir] and [--prompt] are
    required, so they are never [None]. *)
Record Args : Type := mkArgs {
  task : str;
  ckpt_dir : str;
  device_id : Z;
  src_ref_images : option str;
  prompt : str;
  save_file : option str;
  size : str;
  frame_num : Z;
  sample_steps : Z;
  sample_shift : Float;
  sample_solver : str;
  sample_guide_scale : Float;
  base_seed : Z;
  offload_model : bool
}.

(** The keyword arguments [main] passes to [generate]. *)
Definition generate_args (args : Args) : @Fast.GenerateArgs Float :=
  Fast.mkGenerateArgs (prompt args) (src_ref_images args) (save_file args)
    (size args) (frame_num args) (sample_steps args) (sample_shift args)
    (sample_solver args) (sample_guide_scale args) (base_seed args)
    (offload_model args).

(** The body of [main] after [parse_args]: the outcome, the interpreter
    state and the lines printed. [generator.generate] follows the
    reference [get_generator] returned; a reference the heap does not
    hold cannot arise in Python and ends the model's run with an error
    of its own. *)
Definition main (args : Args) (s : Fast.state)
  : outcome unit * Fast.state * list str :=
  match Fast.get_generator WAN_CONFIGS WanVace
          (task args) (Some (ckpt_dir args)) (device_id args) s with
  | (Raise e, s1) => (Raise e, s1, [])
  | (Return generator, s1) =>
      match Fast.heap s1 !! generator with
      | None => (Raise (OtherError "ReferenceError" "no such object"), s1, [])
      | Some self =>
          match Fast.generate sample_fps SIZE_CONFIGS prepare_source
                  pipeline_generate cache_video now_strftime random_draw
                  self (generate_args args) s1 with
          | (Raise e, s2) => (Raise e, s2, [])
          | (Return output_file, s2) =>
              (Return tt, s2, ["Output: " +:+ output_file])
          end
      end
  end.

End Model.

End FastCli.

(** ** Predicates used in the properties *)

Module Predicates.
Import Py.

(** The character [c] does not occur in [s]. *)
Definition lacks (c : char) (s : str) : Prop :=
  contains (Str c EmptyStr) s = false.

(** [s] with [f] applied to every character. *)
Fixpoint map_chars (f : char -> char) (s : str) : str :=
  match s with
  | EmptyStr => EmptyStr
  | Str c s' => Str (f c) (map_chars f s')
  end.

(** What a made-up file name keeps of a character of the prompt: an
    underscore for a space or a slash, the character itself otherwise. *)
Definition sanitized (c : char) : char :=
  if decide (c = " "%chr) then "_"%chr
  else if decide (c = "/"%chr) then "_"%chr else c.

Section Cache.

Context {Config Pipeline Tensor Float : Type}.

Variable WAN_CONFIGS : gmap str Config.

(** Every entry of [_MODEL_CACHE] refers to an object of the heap that
    was built for a triple with the entry's key, for a VACE task of
    [WAN_CONFIGS]. *)
Definition cache_consistent (s : @Fast.state Config Pipeline Tensor Float) : Prop :=
  forall (k : str) (g : nat),
    Fast.MODEL_CACHE s !! k = Some g ->
    exists obj,
      Fast.heap s !! g = Some obj /\
      Fast.cache_key (Fast.task obj) (Fast.ckpt_dir obj) (Fast.device_id obj) = k /\
      contains "vace" (Fast.task obj) = true /\
      WAN_CONFIGS !! Fast.task obj = Some (Fast.cfg obj).

End Cache.

Definition is_cache_video {Config Pipeline Tensor Float : Type}
    (e : @Fast.event Config Pipeline Tensor Float) : bool :=
  match e with Fast.CallCacheVideo _ _ _ => true | _ => false end.

End Predicates.

(** ** More concrete collaborators *)

Module MoreSamples.
Import Py.

(** A request without [save_file], with a prompt that holds spaces and a
    slash. *)
Definition unnamed_request : @Fast.GenerateArgs Z :=
  Fast.mkGenerateArgs "un café / Paris" None None "832*480" 41%Z 25%Z 16%Z "unipc"
    5%Z 42%Z true.

Definition request_with_refs (refs : str) : @Fast.GenerateArgs Z :=
  Fast.mkGenerateArgs "a fox" (Some refs) (Some "out.mp4") "832*480" 41%Z 25%Z 16%Z
    "unipc" 5%Z 42%Z true.

Definition fast_args (task_ size_ : str) : @FastCli.Args Z :=
  FastCli.mkArgs task_ "./Wan2.1-VACE-1.3B" 0%Z None "a fox" (Some "out.mp4") size_
    41%Z 25%Z 16%Z "unipc" 5%Z 42%Z true.


Definition endpoint_interrupted (h : list FromImage.event)
    (req : FromImage.MessageRequest) : outcome str :=
  Raise KeyboardInterrupt.

Definition unreadable_text (h : list FromImage.event) (p : str) : outcome str :=
  Raise (OtherError "UnicodeDecodeError" "invalid start byte").

Definition skipping_args : FromImage.Args :=
  FromImage.mkArgs "video_gen_prompts/generated_image.png"
    "video_gen_prompts/prompt+reasoning.txt" None "t2v-14B" "1280*720"
    "./Wan2.1-T2V-14B" None true.

End MoreSamples.

(** * Properties *)

(** ** Text operations *)

Module PyFacts.
Import Py.

(** A literal is the sequence of its code points. *)
Example literal_is_its_code_points :
  "é✓" = Str 233%N (Str 10003%N EmptyStr) /\ len "📸 café" = 6.
Proof. split; reflexivity. Qed.

Lemma app_nil (s : str) : EmptyStr +:+ s = s.
Proof. reflexivity. Qed.

Lemma app_cons (c : char) (s t : str) : Str c s +:+ t = Str c (s +:+ t).
Proof. reflexivity. Qed.

Lemma app_nil_r (s : str) : s +:+ EmptyStr = s.
Proof. induction s as [|c s IH]; [done|]. by rewrite app_cons, IH. Qed.

Lemma app_assoc (s t u : str) : (s +:+ t) +:+ u = s +:+ t +:+ u.
Proof. induction s as [|c s IH]; [done|]. by rewrite !app_cons, IH. Qed.

Lemma len_app (s t : str) : len (s +:+ t) = len s + len t.
Proof. induction s as [|c s IH]; [done|]. rewrite app_cons. simpl. by rewrite IH. Qed.

Lemma drop_len_app (p q : str) : drop (len p) (p +:+ q) = q.
Proof. induction p as [|c p IH]; [by destruct q|]. by rewrite app_cons. Qed.

Lemma take_len_app (p q : str) : take (len p) (p +:+ q) = p.
Proof. induction p as [|c p IH]; [by destruct q|]. rewrite app_cons. simpl. by rewrite IH. Qed.

Lemma take_drop (n : nat) (s : str) : take n s +:+ drop n s = s.
Proof.
  revert s. induction n as [|n IH]; intros [|c s]; try done.
  simpl. by rewrite app_cons, IH.
Qed.

Lemma startswith_app (p q : str) : startswith p (p +:+ q) = true.
Proof.
  induction p as [|c p IH]; [done|]. rewrite app_cons. simpl.
  by rewrite decide_True.
Qed.

Lemma startswith_inv (p s : str) :
  startswith p s = true -> s = p +:+ drop (len p) s.
Proof.
  revert s. induction p as [|c p IH]; intros [|b s] H; try done.
  simpl in H. destruct (decide (c = b)) as [->|]; [|done].
  rewrite app_cons. simpl. f_equal. by apply IH.
Qed.

(** Two ways of cutting one text: the shorter head is a prefix of the
    longer one. *)
Lemma app_eq_len (a b c d : str) :
  a +:+ b = c +:+ d -> len a = len c -> a = c /\ b = d.
Proof.
  revert c. induction a as [|x a IH]; intros [|y c] H Hl; try done.
  rewrite !app_cons in H. simplify_eq/=.
  destruct (IH c) as [-> ->]; auto.
Qed.

Lemma partition_sound (sep s b a : str) :
  partition sep s = Some (b, a) -> s = b +:+ sep +:+ a.
Proof.
  revert b a. induction s as [|c s IH]; intros b a; simpl.
  - destruct (startswith sep EmptyStr) eqn:E; [|done].
    intros [= <- <-]. by apply startswith_inv in E.
  - destruct (startswith sep (Str c s)) eqn:E.
    + intros [= <- <-]. by apply startswith_inv in E.
    + destruct (partition sep s) as [[b' a']|] eqn:P; [|done].
      intros [= <- <-]. rewrite app_cons. f_equal. by apply IH.
Qed.

Lemma partition_first (sep s b a : str) :
  partition sep s = Some (b, a) ->
  forall p q, s = p +:+ sep +:+ q -> len b <= len p.
Proof.
  revert b a. induction s as [|c s IH]; intros b a; simpl.
  - destruct (startswith sep EmptyStr); [|done].
    intros [= <- <-] p q _. simpl. lia.
  - destruct (startswith sep (Str c s)) eqn:E.
    + intros [= <- <-] p q _. simpl. lia.
    + destruct (partition sep s) as [[b' a']|] eqn:P; [|done].
      intros [= <- <-] [|x p] q Hs.
      * rewrite app_nil in Hs. rewrite Hs, startswith_app in E. done.
      * rewrite app_cons in Hs. simplify_eq/=.
        specialize (IH b' a' eq_refl p q eq_refl). lia.
Qed.

Lemma partition_None (sep s : str) :
  partition sep s = None -> forall p q, s <> p +:+ sep +:+ q.
Proof.
  induction s as [|c s IH]; simpl.
  - destruct (startswith sep EmptyStr) eqn:E; [done|].
    intros _ [|x p] q Hs; [|done].
    rewrite app_nil in Hs. by rewrite Hs, startswith_app in E.
  - destruct (startswith sep (Str c s)) eqn:E; [done|].
    destruct (partition sep s) as [[b' a']|] eqn:P; [done|].
    intros _ [|x p] q Hs.
    + rewrite app_nil in Hs. by rewrite Hs, startswith_app in E.
    + rewrite app_cons in Hs. simplify_eq/=. by eapply IH.
Qed.

Lemma partition_complete (sep b a : str) :
  (forall p q, b +:+ sep +:+ a = p +:+ sep +:+ q -> len b <= len p) ->
  partition sep (b +:+ sep +:+ a) = Some (b, a).
Proof.
  intros Hmin.
  destruct (partition sep (b +:+ sep +:+ a)) as [[b' a']|] eqn:P.
  - pose proof (partition_sound _ _ _ _ P) as Hs.
    pose proof (partition_first _ _ _ _ P b a eq_refl) as H1.
    pose proof (Hmin b' a' Hs) as H2.
    destruct (app_eq_len b (sep +:+ a) b' (sep +:+ a')) as [-> Hr]; [done|lia|].
    destruct (app_eq_len sep a sep a' Hr eq_refl) as [_ ->]. by subst.
  - by destruct (partition_None _ _ P b a).
Qed.

Lemma contains_partition (sep s : str) :
  contains sep s = false <-> partition sep s = None.
Proof.
  induction s as [|c s IH]; simpl.
  - by destruct (startswith sep EmptyStr).
  - destruct (startswith sep (Str c s)); [done|].
    rewrite IH. by destruct (partition sep s) as [[??]|].
Qed.

Lemma partition_shorter (sep s b a : str) :
  sep <> EmptyStr -> partition sep s = Some (b, a) -> len a < len s.
Proof.
  intros Hne P. apply partition_sound in P as ->.
  rewrite !len_app. destruct sep; [done|]. simpl. lia.
Qed.

Lemma split_rounds_enough (sep : str) (n m : nat) (s : str) :
  sep <> EmptyStr -> len s <= n -> len s <= m ->
  split_rounds n sep s = split_rounds m sep s.
Proof.
  intros Hne. revert m s. induction n as [|n IH]; intros m s Hn Hm.
  - destruct s; [|simpl in Hn; lia].
    destruct m; simpl; [done|].
    destruct sep; [done|]. done.
  - destruct m as [|m].
    + destruct s; [|simpl in Hm; lia].
      simpl. destruct sep; [done|]. done.
    + simpl. destruct (partition sep s) as [[b a]|] eqn:P; [|done].
      f_equal. pose proof (partition_shorter _ _ _ _ Hne P).
      apply IH; lia.
Qed.

(** The equation of [split]: cut at the first occurrence, go on with
    what follows it. *)
Lemma split_unfold (sep s : str) :
  sep <> EmptyStr ->
  split sep s = match partition sep s with
                | None => [s]
                | Some (b, a) => b :: split sep a
                end.
Proof.
  intros Hne. unfold split.
  destruct (len s) as [|n] eqn:L.
  - destruct s; [|done]. simpl. destruct sep; [done|]. done.
  - simpl. destruct (partition sep s) as [[b a]|] eqn:P; [|done].
    f_equal. pose proof (partition_shorter _ _ _ _ Hne P).
    apply split_rounds_enough; [done|lia|lia].
Qed.

Lemma split_absent (sep s : str) :
  sep <> EmptyStr -> contains sep s = false -> split sep s = [s].
Proof.
  intros Hne H. rewrite split_unfold by done.
  apply contains_partition in H. by rewrite H.
Qed.

End PyFacts.

(** ** The generator cache and the generation facade *)

Module FastFacts.
Import Py Fast.

Section Facts.
Context {Config Pipeline Tensor Float : Type}.
Variable sample_fps : Config -> Z.
Variable WAN_CONFIGS : gmap str Config.
Variable SIZE_CONFIGS : gmap str (Z * Z).
Variable WanVace :
  list (@event Config Pipeline Tensor Float) ->
  Config -> option str -> Z -> outcome Pipeline.
Variable prepare_source :
  list (@event Config Pipeline Tensor Float) ->
  Pipeline -> option (list (list str)) -> Z -> Z * Z -> Z ->
  outcome (Tensor * Tensor * Tensor).
Variable pipeline_generate :
  list (@event Config Pipeline Tensor Float) ->
  Pipeline -> str -> Tensor * Tensor * Tensor -> Z * Z -> Z ->
  Float -> str -> Z -> Float -> Z -> bool -> outcome Tensor.
Variable cache_video :
  list (@event Config Pipeline Tensor Float) ->
  Tensor -> str -> Z -> outcome unit.
Variable now_strftime : list (@event Config Pipeline Tensor Float) -> str.
Variable random_draw : list (@event Config Pipeline Tensor Float) -> Z.

Local Abbreviation state := (@state Config Pipeline Tensor Float).
Local Abbreviation WanFastGenerator_init :=
  (Fast.WanFastGenerator_init WAN_CONFIGS WanVace).
Local Abbreviation new_WanFastGenerator :=
  (Fast.new_WanFastGenerator WAN_CONFIGS WanVace).
Local Abbreviation get_generator := (Fast.get_generator WAN_CONFIGS WanVace).
Local Abbreviation generate :=
  (Fast.generate sample_fps SIZE_CONFIGS prepare_source pipeline_generate
            cache_video now_strftime random_draw).

(** The state in which [get_generator] starts a construction. *)
Local Abbreviation announced s :=
  (mkState (heap s) (MODEL_CACHE s)
     (LogInfo "Creating new generator (first run - will be slow)" :: trace s)).

(** *** Construction *)

(** What [__init__] can do: raise on an unknown task, raise on a task
    outside the VACE family, or load the pipeline. *)
Lemma init_cases (t : str) (c : option str) (d : Z) (s : state) :
  match WAN_CONFIGS !! t with
  | None => WanFastGenerator_init t c d s = (Raise (KeyError t), s)
  | Some cfg_ =>
      let logged :=
        [LogInfo ("Checkpoint directory: " +:+ format_opt c);
         LogInfo ("Initializing WanFastGenerator for task: " +:+ t);
         BasicConfig] in
      if contains "vace" t then
        let before := LogInfo "Loading VACE pipeline (this may take a while)..."
                        :: logged ++ trace s in
        match WanVace (interactions (trace s)) cfg_ c d with
        | Return p =>
            WanFastGenerator_init t c d s =
              (Return (mkWanFastGenerator t c d cfg_ p),
               mkState (heap s) (MODEL_CACHE s)
                 (LogInfo "✓ VACE pipeline loaded successfully!"
                    :: CallWanVace cfg_ c d :: before))
        | Raise e =>
            WanFastGenerator_init t c d s =
              (Raise e,
               mkState (heap s) (MODEL_CACHE s) (CallWanVace cfg_ c d :: before))
        end
      else
        WanFastGenerator_init t c d s =
          (Raise (NotImplementedError
                    ("Task " +:+ t +:+ " not yet supported in fast mode")),
           mkState (heap s) (MODEL_CACHE s) (logged ++ trace s))
  end.
Proof.
  unfold Fast.WanFastGenerator_init, bind, getitem.
  destruct (WAN_CONFIGS !! t) as [cfg_|]; [|done].
  cbn [ret raise]. unfold _init_logging, logging_info, emit, call, bind; cbn.
  destruct (contains "vace" t); cbn; [|done].
  destruct (WanVace _ cfg_ c d); done.
Qed.

(** A construction that returns: the task is a known VACE task, the
    pipeline was loaded once, and the new object is the last of the heap. *)
Lemma new_returns (t : str) (c : option str) (d : Z) (s s' : state) (g : nat) :
  new_WanFastGenerator t c d s = (Return g, s') ->
  g = length (heap s) /\
  (exists cfg_ p, WAN_CONFIGS !! t = Some cfg_ /\
                  heap s' = heap s ++ [mkWanFastGenerator t c d cfg_ p]) /\
  contains "vace" t = true /\
  MODEL_CACHE s' = MODEL_CACHE s /\
  constructions (trace s') = S (constructions (trace s)) /\
  creation_attempts (trace s') = creation_attempts (trace s).
Proof.
  unfold Fast.new_WanFastGenerator, bind. pose proof (init_cases t c d s) as Hi.
  destruct (WAN_CONFIGS !! t) as [cfg_|]; [|by rewrite Hi].
  cbv zeta in Hi. destruct (contains "vace" t); [|by rewrite Hi].
  destruct (WanVace _ cfg_ c d) as [p|e]; rewrite Hi; [|done].
  intros [= <- <-]. cbn. repeat split; eauto.
Qed.

(** A construction that raises leaves the heap and the cache as they
    were, and does not announce another construction. *)
Lemma new_raises (t : str) (c : option str) (d : Z) (s s' : state) (e : exn) :
  new_WanFastGenerator t c d s = (Raise e, s') ->
  heap s' = heap s /\ MODEL_CACHE s' = MODEL_CACHE s /\
  creation_attempts (trace s') = creation_attempts (trace s).
Proof.
  unfold Fast.new_WanFastGenerator, bind. pose proof (init_cases t c d s) as Hi.
  destruct (WAN_CONFIGS !! t) as [cfg_|]; [|rewrite Hi; by intros [= <- <-]].
  cbv zeta in Hi. destruct (contains "vace" t).
  - destruct (WanVace _ cfg_ c d) as [p|e']; rewrite Hi; [done|].
    intros [= <- <-]. cbn. by repeat split.
  - rewrite Hi. intros [= <- <-]. cbn. by repeat split.
Qed.

(** *** The two paths of [get_generator] *)

Lemma acquire_hit (t : str) (c : option str) (d : Z) (s : state) (g : nat) :
  MODEL_CACHE s !! cache_key t c d = Some g ->
  get_generator t c d s =
    (Return g,
     mkState (heap s) (MODEL_CACHE s)
       (LogInfo "Using cached generator (fast!)" :: trace s)).
Proof.
  intros H. unfold Fast.get_generator, bind, cache_misses, cache_load, getitem.
  rewrite bool_decide_eq_false_2 by (rewrite H; done).
  unfold logging_info, emit. cbn. by rewrite H.
Qed.

Lemma acquire_miss (t : str) (c : option str) (d : Z) (s : state) :
  MODEL_CACHE s !! cache_key t c d = None ->
  get_generator t c d s =
    match new_WanFastGenerator t c d (announced s) with
    | (Return g, s') =>
        (Return g,
         mkState (heap s') (<[cache_key t c d := g]> (MODEL_CACHE s')) (trace s'))
    | (Raise e, s') => (Raise e, s')
    end.
Proof.
  intros H. unfold Fast.get_generator, bind, cache_misses.
  rewrite bool_decide_eq_true_2 by done.
  unfold logging_info, emit. cbn.
  destruct (new_WanFastGenerator t c d _) as [[g|e] s']; [|done].
  unfold cache_store, cache_load, getitem. cbn.
  by rewrite lookup_insert_eq.
Qed.

(** *** Claims on the resource cache *)

(** C3 (amended). Two acquires with identical arguments, the first of
    which returns: the second returns the identical instance, and the
    pipeline is loaded exactly once across the two calls when the key was
    not cached before the first one (and not at all when it was). *)
Theorem get_generator_twice_same_instance
    (t : str) (c : option str) (d : Z) (s s1 : state) (g : nat) :
  get_generator t c d s = (Return g, s1) ->
  exists s2,
    get_generator t c d s1 = (Return g, s2) /\
    constructions (trace s2) =
      constructions (trace s) +
      match MODEL_CACHE s !! cache_key t c d with None => 1 | Some _ => 0 end /\
    heap s2 = heap s1 /\ MODEL_CACHE s2 = MODEL_CACHE s1.
Proof.
  intros H1. destruct (MODEL_CACHE s !! cache_key t c d) as [g0|] eqn:Hk.
  - rewrite (acquire_hit _ _ _ _ _ Hk) in H1. injection H1 as <- <-.
    eexists. split; [by apply acquire_hit|]. cbn. unfold constructions. cbn.
    repeat split; lia.
  - rewrite (acquire_miss _ _ _ _ Hk) in H1.
    destruct (new_WanFastGenerator t c d _) as [[g'|e] s'] eqn:Hn; [|done].
    injection H1 as <- <-.
    apply new_returns in Hn as (_ & _ & _ & _ & Hc & _).
    eexists. split; [apply acquire_hit; cbn; apply lookup_insert_eq|].
    cbn. unfold constructions in *. cbn in *. repeat split; lia.
Qed.

(** C4. When the construction started by an acquire raises, the acquire
    raises the same exception and stops there, the cache is unchanged
    and still has no entry under the key, and the next acquire with the
    same arguments announces and runs a construction again. *)
Theorem get_generator_failure_not_cached
    (t : str) (c : option str) (d : Z) (s s' : state) (e : exn) :
  MODEL_CACHE s !! cache_key t c d = None ->
  new_WanFastGenerator t c d (announced s) = (Raise e, s') ->
  get_generator t c d s = (Raise e, s') /\
  MODEL_CACHE s' = MODEL_CACHE s /\
  MODEL_CACHE s' !! cache_key t c d = None /\
  (get_generator t c d s').1 = (new_WanFastGenerator t c d (announced s')).1 /\
  creation_attempts (trace (get_generator t c d s').2)
    = S (creation_attempts (trace s')).
Proof.
  intros Hk Hn. rewrite (acquire_miss _ _ _ _ Hk), Hn.
  apply new_raises in Hn as (_ & Hc & _). cbn in Hc.
  assert (MODEL_CACHE s' !! cache_key t c d = None) as Hk' by by rewrite Hc.
  repeat split; [done..| |].
  - rewrite (acquire_miss _ _ _ _ Hk').
    by destruct (new_WanFastGenerator t c d _) as [[?|?] ?].
  - rewrite (acquire_miss _ _ _ _ Hk').
    destruct (new_WanFastGenerator t c d _) as [[g'|e'] s''] eqn:Hn';
      cbn -[creation_attempts].
    + by apply new_returns in Hn' as (_ & _ & _ & _ & _ & ->).
    + by apply new_raises in Hn' as (_ & _ & ->).
Qed.

(** C2 (amended). Constructing a generator for a task outside the VACE
    family raises during construction, before any pipeline is loaded and
    without creating an object: [KeyError] when the task is not a key of
    [WAN_CONFIGS], [NotImplementedError] when it is. *)
Theorem construction_rejects_other_tasks
    (t : str) (c : option str) (d : Z) (s : state) :
  contains "vace" t = false ->
  exists s',
    new_WanFastGenerator t c d s =
      (Raise match WAN_CONFIGS !! t with
             | None => KeyError t
             | Some _ => NotImplementedError
                           ("Task " +:+ t +:+ " not yet supported in fast mode")
             end, s') /\
    heap s' = heap s /\ MODEL_CACHE s' = MODEL_CACHE s /\
    constructions (trace s') = constructions (trace s).
Proof.
  intros Hv. unfold Fast.new_WanFastGenerator, bind.
  pose proof (init_cases t c d s) as Hi.
  destruct (WAN_CONFIGS !! t) as [cfg_|]; cbv zeta in Hi.
  - rewrite Hv in Hi. rewrite Hi. by eexists.
  - rewrite Hi. by eexists.
Qed.

(** Once an acquire has built the instance of one triple, an acquire for
    any triple with the same key returns that instance, whose attributes
    are those of the first triple, and loads no pipeline. *)
Lemma colliding_acquire_returns_other_instance
    (t1 t2 : str) (c1 c2 : option str) (d1 d2 : Z)
    (s s1 : state) (g : nat) :
  cache_key t1 c1 d1 = cache_key t2 c2 d2 ->
  MODEL_CACHE s !! cache_key t1 c1 d1 = None ->
  get_generator t1 c1 d1 s = (Return g, s1) ->
  exists s2 obj,
    get_generator t2 c2 d2 s1 = (Return g, s2) /\
    heap s2 !! g = Some obj /\
    (task obj, ckpt_dir obj, device_id obj) = (t1, c1, d1) /\
    constructions (trace s2) = constructions (trace s1).
Proof.
  intros Hkey Hk H1. rewrite (acquire_miss _ _ _ _ Hk) in H1.
  destruct (new_WanFastGenerator t1 c1 d1 _) as [[g'|e] s'] eqn:Hn; [|done].
  injection H1 as <- <-.
  apply new_returns in Hn as (-> & (cfg_ & p & _ & Hh) & _).
  eexists _, _.
  split; [apply acquire_hit; cbn; rewrite <- Hkey; apply lookup_insert_eq|].
  cbn. rewrite Hh. split.
  { cbn. rewrite lookup_app_r by done. by rewrite Nat.sub_diag. }
  split; [reflexivity|done].
Qed.

(** C10. The cache key does not determine the triple: two distinct
    triples have the same key. Hence, once an acquire has built the
    instance of one triple, an acquire for any other triple with the same
    key returns that instance, whose attributes are those of the first
    triple, and loads no pipeline of its own. *)
Theorem cache_key_not_injective :
  (exists t1 c1 d1 t2 c2 d2,
     (t1, c1, d1) <> (t2, c2, d2) /\ cache_key t1 c1 d1 = cache_key t2 c2 d2) /\
  forall (t1 t2 : str) (c1 c2 : option str) (d1 d2 : Z)
         (s s1 : state) (g : nat),
    cache_key t1 c1 d1 = cache_key t2 c2 d2 ->
    MODEL_CACHE s !! cache_key t1 c1 d1 = None ->
    get_generator t1 c1 d1 s = (Return g, s1) ->
    exists s2 obj,
      get_generator t2 c2 d2 s1 = (Return g, s2) /\
      heap s2 !! g = Some obj /\
      (task obj, ckpt_dir obj, device_id obj) = (t1, c1, d1) /\
      constructions (trace s2) = constructions (trace s1).
Proof.
  split; [|apply colliding_acquire_returns_other_instance].
  exists "vace-1.3B", (Some "models_v2"), 0%Z,
         "vace-1.3B_models", (Some "v2"), 0%Z.
  split; [intros H; discriminate H|reflexivity].
Qed.

(** *** Claims on the generation facade *)

Ltac run_generate_cases self a :=
  unfold Fast.generate, bind, getitem, randint, logging_info, emit, call, ret, raise;
  cbn [fst snd heap MODEL_CACHE trace];
  destruct (base_seed a <? 0)%Z eqn:Hseed;
  destruct (truthy_opt (src_ref_images a));
  cbn [fst snd heap MODEL_CACHE trace];
  (destruct (SIZE_CONFIGS !! size a) as [res|] eqn:Hsize;
   cbn [fst snd heap MODEL_CACHE trace];
   [ cbn [interactions List.filter is_logging negb];
     lazymatch goal with
     | |- context [prepare_source ?h ?p ?r ?f ?z ?d] =>
         destruct (prepare_source h p r f z d) as [src|] eqn:Hprep
     end;
     cbn [fst snd heap MODEL_CACHE trace];
     [ lazymatch goal with
       | |- context [pipeline_generate ?h ?p ?t ?x ?z ?f ?sh ?so ?st ?gu ?se ?o] =>
           destruct (pipeline_generate h p t x z f sh so st gu se o) as [video|]
       end;
       cbn [fst snd heap MODEL_CACHE trace];
       [ destruct (save_file a);
         cbn [fst snd heap MODEL_CACHE trace];
         lazymatch goal with
         | |- context [cache_video ?h ?v ?f ?r] => destruct (cache_video h v f r)
         end;
         cbn [fst snd heap MODEL_CACHE trace]
       | ]
     | ]
   | ]).

(** The events a run has put in front of the log it started with. *)
Ltac events_before t base :=
  lazymatch t with
  | base => constr:(@nil (@event Config Pipeline Tensor Float))
  | ?x :: ?t' => let r := events_before t' base in constr:(x :: r)
  end.

Ltac exists_new :=
  lazymatch goal with
  | |- exists new, ?t = new ++ ?base /\ _ =>
      let r := events_before t base in exists r
  end.

(** C9. A size that is a key of [SIZE_CONFIGS] is resolved to its entry:
    the pipeline's [prepare_source] is called with it, and so is the
    pipeline's [generate] when it is reached. For any other size the
    call raises [KeyError] and no pipeline work appears in the log. *)
Theorem generate_resolves_size (self : WanFastGenerator) (a : GenerateArgs) (s : state) :
  exists new,
    trace (generate self a s).2 = new ++ trace s /\
    match SIZE_CONFIGS !! size a with
    | Some res =>
        resolutions_used new = [res] \/ resolutions_used new = [res; res]
    | None =>
        (generate self a s).1 = Raise (KeyError (size a)) /\
        List.filter is_pipeline_work new = []
    end.
Proof.
  run_generate_cases self a; exists_new; (split; [reflexivity|]); cbn; auto.
Qed.

(** C5. The seed the facade hands to the pipeline is the given seed
    when that is not negative, and otherwise a value drawn by
    [random.randint(0, sys.maxsize)], which lies between 0 and
    [sys.maxsize]; in both cases it is not negative. Whenever the size is
    known and [prepare_source] returns, the pipeline's [generate] is
    called once, with that seed. *)
Theorem generate_seed_normalized
    (self : WanFastGenerator) (a : GenerateArgs) (s : state) :
  let drawn := (0 + random_draw (interactions (trace s)) mod (sys_maxsize - 0 + 1))%Z in
  let seed := if (base_seed a <? 0)%Z then drawn else base_seed a in
  let refs := if truthy_opt (src_ref_images a)
              then Some [split "," (format_opt (src_ref_images a))] else None in
  let drawing := if (base_seed a <? 0)%Z then [CallRandint 0 sys_maxsize] else [] in
  (0 <= drawn <= sys_maxsize)%Z /\
  (0 <= seed)%Z /\
  exists new,
    trace (generate self a s).2 = new ++ trace s /\
    (seeds_passed new = [] \/ seeds_passed new = [seed]) /\
    List.filter (fun e => match e with CallRandint _ _ => true | _ => false end) new
      = drawing /\
    forall res src,
      SIZE_CONFIGS !! size a = Some res ->
      prepare_source (interactions (drawing ++ trace s)) (pipeline self) refs
        (frame_num a) res (device_id self) = Return src ->
      seeds_passed new = [seed].
Proof.
  intros drawn seed refs drawing.
  assert (0 <= drawn <= sys_maxsize)%Z as Hd.
  { unfold drawn, sys_maxsize.
    pose proof (Z.mod_pos_bound (random_draw (interactions (trace s)))
                  (2 ^ 63 - 1 - 0 + 1)%Z ltac:(lia)). lia. }
  split; [done|]. split.
  { unfold seed. destruct (base_seed a <? 0)%Z eqn:E; [lia|]. lia. }
  subst seed refs drawing drawn.
  run_generate_cases self a; exists_new; (split; [reflexivity|]);
    cbn [seeds_passed omap List.filter app];
    (split; [auto|]); (split; [reflexivity|]);
    intros res' src' Hres Hsrc; try done;
    cbn [interactions List.filter is_logging negb app] in Hsrc;
    unfold interactions in *; congruence.
Qed.

End Facts.
End FastFacts.

(** ** The enhancement CLI *)

Module FromImageFacts.
Import Py FromImage.

Section Facts.
Variable path_exists : list event -> str -> bool.
Variable read_text : list event -> str -> outcome str.
Variable read_bytes : list event -> str -> outcome string.
Variable b64encode : string -> str.
Variable suffix_lower : str -> str.
Variable environ_ANTHROPIC_API_KEY : option str.
Variable messages_create : list event -> MessageRequest -> outcome str.
Variable subprocess_run : list event -> list str -> outcome Z.
Variable sys_executable : str.

Local Abbreviation generate_video_prompt_with_claude :=
  (FromImage.generate_video_prompt_with_claude read_bytes b64encode suffix_lower
     messages_create).
Local Abbreviation choose_video_prompt :=
  (FromImage.choose_video_prompt read_bytes b64encode suffix_lower messages_create).
Local Abbreviation main :=
  (FromImage.main path_exists read_text read_bytes b64encode suffix_lower
        environ_ANTHROPIC_API_KEY messages_create).
Local Abbreviation generate_video :=
  (FromImage.generate_video subprocess_run sys_executable).
Local Abbreviation build_cmd := (FromImage.build_cmd sys_executable).

Ltac run_monad :=
  unfold seq; unfold bind, print, call, ret, raise, sys_exit, try_except;
  cbn [fst snd interactions List.filter is_print negb].

(** *** The external process invoker *)

Lemma generate_video_cases
    (prompt_ task_ size_ ckpt_dir_ : str) (output_dir_ : option str)
    (additional_args : option (list str)) (h : list event) :
  let cmd := build_cmd prompt_ task_ size_ ckpt_dir_ output_dir_ additional_args in
  let ran := SubprocessRun cmd :: Print (rule "=" +:+ nl) :: Print (join " " cmd)
               :: Print "EXECUTING VIDEO GENERATION COMMAND:"
               :: Print (nl +:+ rule "=") :: h in
  generate_video prompt_ task_ size_ ckpt_dir_ output_dir_ additional_args h =
    match subprocess_run (interactions h) cmd with
    | Raise e => (Raise e, ran)
    | Return returncode =>
        if decide (returncode <> 0%Z) then
          (Raise (SystemExit returncode),
           Print (nl +:+ "✗ Video generation failed with return code "
                    +:+ format_int returncode) :: ran)
        else
          (Return tt, Print (nl +:+ "✓ Video generation completed successfully!") :: ran)
    end.
Proof.
  intros cmd ran. unfold FromImage.generate_video. fold cmd. run_monad.
  destruct (subprocess_run _ cmd) as [c|e]; [|done].
  by destruct (decide (c <> 0%Z)).
Qed.

Lemma interactions_idempotent (h : list event) :
  interactions (interactions h) = interactions h.
Proof.
  unfold interactions. induction h as [|e h IH]; [done|].
  cbn. destruct (is_print e) eqn:E; cbn; [done|]. by rewrite E, IH.
Qed.

(** *** The reasoning-file reader *)

Lemma read_reasoning_file_returns (text_path content : str) (h : list event) :
  read_text (interactions h) text_path = Return content ->
  read_reasoning_file read_text text_path h
  = (Return (split_reasoning content), ReadText text_path :: h).
Proof. intros H. unfold read_reasoning_file, bind, call, ret. by rewrite H. Qed.

(** *** The prompt-enhancement client *)

Lemma enhance_cases (image_path r p : str) (key : option str) (h : list event) :
  generate_video_prompt_with_claude image_path r p key h =
    match read_bytes (interactions h) image_path with
    | Raise e => (Raise e, ReadBytes image_path :: h)
    | Return bytes =>
        let req := mkMessageRequest key "claude-3-5-sonnet-20241022" 500 (7, 10)%Z
                     system_prompt
                     (default "image/png" (media_type_map !! suffix_lower image_path))
                     (b64encode bytes) (user_prompt r p) in
        match messages_create (ReadBytes image_path :: interactions h) req with
        | Raise e => (Raise e, MessagesCreate req :: ReadBytes image_path :: h)
        | Return text_ =>
            (Return (strip text_), MessagesCreate req :: ReadBytes image_path :: h)
        end
    end.
Proof.
  unfold FromImage.generate_video_prompt_with_claude, encode_image_to_base64.
  run_monad.
  destruct (read_bytes _ image_path) as [bytes|e]; [|done]. cbn zeta.
  by destruct (messages_create _ _) as [t|e].
Qed.

(** The outcome of the enhancement call depends on the calls made
    before it, not on what was printed. *)
Lemma enhance_outcome (image_path r p : str) (key : option str) (h : list event) :
  (generate_video_prompt_with_claude image_path r p key h).1
  = (generate_video_prompt_with_claude image_path r p key (interactions h)).1.
Proof.
  rewrite !enhance_cases, interactions_idempotent.
  destruct (read_bytes _ image_path) as [bytes|e]; [|done]. cbn zeta.
  by destruct (messages_create _ _) as [t|e].
Qed.

Lemma enhance_no_subprocess (image_path r p : str) (key : option str)
    (h : list event) :
  List.filter is_subprocess_run (generate_video_prompt_with_claude image_path r p key h).2
  = List.filter is_subprocess_run h.
Proof.
  rewrite enhance_cases.
  destruct (read_bytes _ image_path) as [bytes|e]; [|done]. cbn zeta.
  by destruct (messages_create _ _) as [t|e].
Qed.

(** *** [main] *)

Lemma choose_no_subprocess (args : Args) (key : option str)
    (data : ReasoningData) (h : list event) :
  List.filter is_subprocess_run (choose_video_prompt args key data h).2
  = List.filter is_subprocess_run h.
Proof.
  unfold FromImage.choose_video_prompt. destruct (skip_claude args); run_monad; [done|].
  match goal with
  | |- context [generate_video_prompt_with_claude ?i ?r ?p ?k ?h0] =>
      pose proof (enhance_no_subprocess i r p k h0) as Hsub;
      destruct (generate_video_prompt_with_claude i r p k h0) as [[vp|e] h1]
  end; cbn [fst snd] in *.
  - cbn [List.filter is_subprocess_run]. by rewrite Hsub.
  - destruct (is_Exception e); cbn [fst snd List.filter is_subprocess_run];
      by rewrite Hsub.
Qed.

Ltac run_main_cases args :=
  unfold FromImage.main, read_reasoning_file; run_monad;
  destruct (path_exists _ (image args)) eqn:Himage;
  cbn [negb fst snd interactions List.filter is_print];
  [ destruct (path_exists _ (text args)) eqn:Htext;
    cbn [negb fst snd interactions List.filter is_print];
    [ destruct (truthy_opt (or_else (api_key args) environ_ANTHROPIC_API_KEY))
        eqn:Hkey;
      destruct (skip_claude args) eqn:Hskip;
      cbn [negb andb fst snd interactions List.filter is_print];
      [ | | | ];
      try (destruct (read_text _ (text args)) as [content|] eqn:Hread;
           cbn [negb andb fst snd interactions List.filter is_print])
    | ]
  | ].

Lemma main_never_runs_subprocess (args : Args) (unknown_args : list str)
    (h : list event) :
  List.filter is_subprocess_run (main args unknown_args h).2
  = List.filter is_subprocess_run h.
Proof.
  run_main_cases args.
  all: try match goal with
       | |- context [choose_video_prompt ?a ?k ?d ?h0] =>
           pose proof (choose_no_subprocess a k d h0) as Hsub;
           destruct (choose_video_prompt a k d h0) as [[vp|e] h1]
       end.
  all: cbn [fst snd List.filter is_subprocess_run] in *.
  all: try rewrite Hsub; cbn [fst snd List.filter is_subprocess_run]; reflexivity.
Qed.

(** *** Claims on the enhancement CLI *)

(** C1 (amended). The invoker acts on the child's return code [c]
    instead of returning it: a zero code lets the call return, and a
    non-zero code ends the call with [SystemExit c], which no
    continuation and no [except Exception] clause around the call can
    stop. The process then exits with [c] modulo 256: with the child's
    own code when the child exited with a code from 1 to 255, and with
    [256 - n] when the child was killed by signal [n] (return code
    [- n]). The child is run exactly once. *)
Theorem generate_video_mirrors_exit_code
    (prompt_ task_ size_ ckpt_dir_ : str) (output_dir_ : option str)
    (additional_args : option (list str)) (h : list event) (c : Z) :
  subprocess_run (interactions h)
    (build_cmd prompt_ task_ size_ ckpt_dir_ output_dir_ additional_args) = Return c ->
  (- 2 ^ 31 <= c < 2 ^ 31)%Z ->
  let run := generate_video prompt_ task_ size_ ckpt_dir_ output_dir_ additional_args in
  exit_status (run h).1 = (c mod 256)%Z /\
  ((0 <= c < 256)%Z -> exit_status (run h).1 = c) /\
  (forall n, (0 < n < 256)%Z -> c = (- n)%Z -> exit_status (run h).1 = (256 - n)%Z) /\
  (c <> 0%Z ->
   (run h).1 = Raise (SystemExit c) /\
   forall (B : Type) (k : unit -> M B) (handler : exn -> M B),
     try_except (bind run k) handler h = (Raise (SystemExit c), (run h).2)) /\
  (c = 0%Z -> (run h).1 = Return tt) /\
  List.filter is_subprocess_run (run h).2 =
    SubprocessRun (build_cmd prompt_ task_ size_ ckpt_dir_ output_dir_ additional_args)
      :: List.filter is_subprocess_run h.
Proof.
  intros Hc Hint run. subst run.
  pose proof (generate_video_cases prompt_ task_ size_ ckpt_dir_ output_dir_
                additional_args h) as Hg.
  cbv zeta in Hg. rewrite Hc in Hg.
  assert (exit_status
            (generate_video prompt_ task_ size_ ckpt_dir_ output_dir_
               additional_args h).1 = (c mod 256)%Z) as Hexit.
  { rewrite Hg. destruct (decide (c <> 0%Z)) as [|Hz]; [done|].
    cbn. destruct (decide (c = 0%Z)) as [->|]; [done|contradiction]. }
  split; [exact Hexit|]. split; [|split; [|split; [|split]]].
  - intros Hr. rewrite Hexit. by apply Z.mod_small.
  - intros n Hn ->. rewrite Hexit.
    replace (- n)%Z with ((256 - n) + (-1) * 256)%Z by lia.
    rewrite Z.mod_add by lia. apply Z.mod_small. lia.
  - intros Hnz. rewrite decide_True in Hg by done. split; [by rewrite Hg|].
    intros B k handler. unfold try_except, bind. by rewrite Hg.
  - intros ->. by rewrite Hg.
  - rewrite Hg. by destruct (decide (c <> 0%Z)).
Qed.

(** C8. When the image file is missing, or the text file is missing, or
    no API key is available (neither the flag nor the environment
    variable holds a non-empty one) and [--skip-claude] was not given,
    [main] ends with [sys.exit(1)], and it has made no network call and
    read no file by then. *)
Theorem main_exits_1_before_any_network_call
    (args : Args) (unknown_args : list str) (h : list event) :
  path_exists (interactions h) (image args) = false \/
  path_exists (PathExists (image args) :: interactions h) (text args) = false \/
  (truthy_opt (or_else (api_key args) environ_ANTHROPIC_API_KEY) = false /\
   skip_claude args = false) ->
  (main args unknown_args h).1 = Raise (SystemExit 1) /\
  exit_status (main args unknown_args h).1 = 1%Z /\
  List.filter is_network_call (main args unknown_args h).2
    = List.filter is_network_call h /\
  exists checks,
    interactions (main args unknown_args h).2 = checks ++ interactions h /\
    Forall (fun e => exists p, e = PathExists p) checks.
Proof.
  intros H. unfold interactions in H.
  run_main_cases args.
  all: try (exfalso; destruct H as [H|[H|[H1 H2]]]; congruence).
  all: repeat split.
  - exists [PathExists (text args); PathExists (image args)].
    split; [done|]. repeat constructor; eauto.
  - exists [PathExists (text args); PathExists (image args)].
    split; [done|]. repeat constructor; eauto.
  - exists [PathExists (image args)].
    split; [done|]. repeat constructor; eauto.
Qed.

(** C7. When the files exist, an API key is available, enhancement is
    not skipped, and the enhancement call raises an exception [e] that
    derives from [Exception] (every transport or API error does),
    [main] catches it: the final video prompt is the unmodified original
    prompt of the parsed file, the run goes on to the last line it
    prints, and the exit status is 0. *)
Theorem main_falls_back_to_original_prompt
    (args : Args) (unknown_args : list str) (h : list event)
    (doc : str) (e : exn) :
  let key := or_else (api_key args) environ_ANTHROPIC_API_KEY in
  let data := split_reasoning doc in
  let checked := PathExists (text args) :: PathExists (image args) :: interactions h in
  path_exists (interactions h) (image args) = true ->
  path_exists (PathExists (image args) :: interactions h) (text args) = true ->
  truthy_opt key = true ->
  skip_claude args = false ->
  read_text checked (text args) = Return doc ->
  (generate_video_prompt_with_claude (image args) (reasoning data)
     (original_prompt data) key
     (ReadText (text args) :: checked)).1 = Raise e ->
  is_Exception e = true ->
  (main args unknown_args h).1 = Return (original_prompt data) /\
  exit_status (main args unknown_args h).1 = 0%Z /\
  exists earlier,
    (main args unknown_args h).2 =
      [Print (rule "="); Print "✓ COMPLETE!"; Print (nl +:+ rule "=");
       Print (rule "-"); Print "GENERATING VIDEO..."; Print (nl +:+ rule "-");
       Print "Falling back to original prompt...";
       Print (nl +:+ "✗ Error calling Claude API: " +:+ format_exn e)] ++ earlier.
Proof.
  intros key data checked Himg Htxt Hk Hs Hr He Hex.
  subst key data checked. unfold interactions in Himg, Htxt, Hr.
  run_main_cases args; try congruence.
  assert (content = doc) as -> by congruence.
  unfold FromImage.choose_video_prompt. rewrite Hskip. run_monad.
  match goal with
  | |- context [generate_video_prompt_with_claude ?i ?r ?p ?k ?h0] =>
      pose proof (enhance_outcome i r p k h0) as Ho;
      destruct (generate_video_prompt_with_claude i r p k h0) as [[vp|e'] h1]
  end.
  all: cbn [fst snd interactions List.filter is_print negb] in Ho.
  all: unfold interactions in He; rewrite He in Ho; cbn [fst] in Ho.
  - discriminate Ho.
  - injection Ho as ->. rewrite Hex. cbn [fst snd exit_status].
    split; [reflexivity|]. split; [reflexivity|]. eexists. reflexivity.
Qed.

End Facts.
End FromImageFacts.

(** ** The reasoning-file parser *)

Module ParserFacts.
Import Py PyFacts FromImage.

Lemma marker_nonempty : END_OF_REASONING <> EmptyStr.
Proof. done. Qed.

Lemma scan_without_cue (lines : list str) :
  existsb is_cue_line lines = false -> scan_for_prompt lines = EmptyStr.
Proof.
  induction lines as [|l lines IH]; [done|]. cbn [existsb scan_for_prompt].
  destruct (is_cue_line l); [done|]. exact IH.
Qed.

(** The prompt built at the first cue line. *)
Lemma scan_at_first_cue (skipped rest : list str) (line : str) :
  existsb is_cue_line skipped = false ->
  is_cue_line line = true ->
  scan_for_prompt (skipped ++ line :: rest) =
    strip (replace CUE_PHRASE EmptyStr
             (join " " (collect_prompt_lines (line :: rest)))).
Proof.
  intros Hs Hl. induction skipped as [|l skipped IH].
  - cbn [app scan_for_prompt]. by rewrite Hl.
  - cbn [existsb] in Hs. apply orb_false_iff in Hs as [Hl' Hs].
    cbn [app scan_for_prompt]. rewrite Hl'. by apply IH.
Qed.

Lemma extract_prompt_without_cue (remaining : str) :
  existsb is_cue_line (split nl remaining) = false ->
  extract_prompt remaining = remaining.
Proof. intros H. unfold extract_prompt. by rewrite (scan_without_cue _ H). Qed.

Lemma split_reasoning_at_marker (content before after : str) :
  partition END_OF_REASONING content = Some (before, after) ->
  reasoning (split_reasoning content) = strip before /\
  (contains END_OF_REASONING after = false ->
   original_prompt (split_reasoning content) = extract_prompt (strip after)).
Proof.
  intros P. unfold split_reasoning.
  rewrite (split_unfold _ _ marker_nonempty), P.
  rewrite (split_unfold _ after marker_nonempty).
  split.
  - by destruct (partition END_OF_REASONING after) as [[??]|].
  - intros H. apply contains_partition in H. by rewrite H.
Qed.

(** C6 (amended). With a marker in the text, [reasoning] is the text
    before the first marker, trimmed; when the marker does not occur
    again, [original_prompt] is what the cue-line logic extracts from the
    trimmed text after the marker: that whole trimmed text when none of
    its lines is a cue line, and otherwise the trimmed, non-empty lines
    from the first cue line on, joined by spaces, with the cue phrase
    removed and trimmed again (or the whole trimmed text when that is
    empty). Without a marker (the text is no [p + marker + q]) it is cut
    at the character index [len // 2]. *)
Theorem split_reasoning_by_marker (content : str) :
  if contains END_OF_REASONING content then
    exists before after,
      content = before +:+ END_OF_REASONING +:+ after /\
      (forall p q, content = p +:+ END_OF_REASONING +:+ q -> len before <= len p) /\
      reasoning (split_reasoning content) = strip before /\
      (contains END_OF_REASONING after = false ->
       original_prompt (split_reasoning content) = extract_prompt (strip after) /\
       (existsb is_cue_line (split nl (strip after)) = false ->
        original_prompt (split_reasoning content) = strip after) /\
       (forall skipped line rest,
          split nl (strip after) = skipped ++ line :: rest ->
          existsb is_cue_line skipped = false ->
          is_cue_line line = true ->
          let built :=
            strip (replace CUE_PHRASE EmptyStr
                     (join " " (List.filter truthy (List.map strip (line :: rest))))) in
          original_prompt (split_reasoning content)
          = if truthy built then built else strip after))
  else
    (forall p q, content <> p +:+ END_OF_REASONING +:+ q) /\
    split_reasoning content =
      mkReasoningData (take (len content / 2) content) (drop (len content / 2) content).
Proof.
  destruct (contains END_OF_REASONING content) eqn:C.
  - destruct (partition END_OF_REASONING content) as [[before after]|] eqn:P.
    + exists before, after.
      destruct (split_reasoning_at_marker _ _ _ P) as [Hr Hp].
      split; [by apply partition_sound|].
      split; [by apply (partition_first _ _ _ _ P)|].
      split; [done|]. intros Ha. split; [by apply Hp|]. split.
      * intros Hcue. rewrite (Hp Ha). by apply extract_prompt_without_cue.
      * intros skipped line rest Hlines Hskipped Hline. rewrite (Hp Ha).
        unfold extract_prompt. cbv zeta.
        by rewrite Hlines, (scan_at_first_cue _ _ _ Hskipped Hline).
    + apply contains_partition in P. congruence.
  - split; [by apply partition_None, contains_partition|].
    unfold split_reasoning. by rewrite (split_absent _ _ marker_nonempty C).
Qed.

(** C6 as stated fails: the fallback is the trimmed remainder, not the
    entire one. *)
Lemma split_reasoning_trims_remainder :
  let content := "Plan the scene." +:+ nl +:+ "--- END OF REASONING ---" +:+ nl
                   +:+ "A red fox in snow" +:+ nl in
  let remainder := nl +:+ "A red fox in snow" +:+ nl in
  partition END_OF_REASONING content = Some ("Plan the scene." +:+ nl, remainder) /\
  contains END_OF_REASONING remainder = false /\
  existsb is_cue_line (split nl remainder) = false /\
  original_prompt (Specified.split_reasoning_as_specified content) = remainder /\
  original_prompt (split_reasoning content) = "A red fox in snow" /\
  split_reasoning content <> Specified.split_reasoning_as_specified content.
Proof. vm_compute. repeat split; try reflexivity. intros H. discriminate H. Qed.

(** Further runs of the parser. *)

Example cue_line_prompt_is_extracted :
  split_reasoning Samples.document
  = mkReasoningData "Plan the scene." "Cartoon fox in snow".
Proof. reflexivity. Qed.

Example text_without_marker_is_halved :
  split_reasoning "abcde" = mkReasoningData "ab" "cde".
Proof. reflexivity. Qed.

(** A cue line with nothing after the phrase: the extracted prompt is
    empty, so the trimmed remainder is used, phrase included. *)
Example bare_cue_phrase_falls_back :
  split_reasoning ("R--- END OF REASONING ---Generating image with prompt:")
  = mkReasoningData "R" "Generating image with prompt:".
Proof. reflexivity. Qed.

(** The text is cut at every marker and only the second part is read:
    what follows a second marker is dropped. *)
Example text_after_second_marker_is_dropped :
  split_reasoning ("R--- END OF REASONING ---A--- END OF REASONING ---B")
  = mkReasoningData "R" "A".
Proof. reflexivity. Qed.

(** The text is cut by characters, not by the bytes of an encoding. *)
Example non_ascii_text_is_halved_by_characters :
  split_reasoning "café crème" = mkReasoningData "café " "crème".
Proof. reflexivity. Qed.

(** [strip] removes Unicode white space: a remainder that is one
    no-break space (U+00A0) gives an empty prompt. *)
Example no_break_space_is_stripped :
  split_reasoning ("R--- END OF REASONING ---" +:+ Str 160%N EmptyStr)
  = mkReasoningData "R" EmptyStr.
Proof. reflexivity. Qed.

End ParserFacts.

(** ** Runs on concrete collaborators *)

Module Scenarios.
Import Py.

(** *** The generator cache *)

(** C2 as stated fails: a task that is not a key of [WAN_CONFIGS] is
    rejected with [KeyError], not with [NotImplementedError]. *)
Lemma unknown_task_raises_KeyError :
  contains "vace" "unknown-task" = false /\
  (Fast.new_WanFastGenerator Samples.WAN_CONFIGS Samples.WanVace_loads
     "unknown-task" (Some "./ckpt") 0 Samples.fresh).1
  = Raise (KeyError "unknown-task").
Proof. split; reflexivity. Qed.

(** C2 (amended) on the default task of the other script. *)
Lemma construction_rejects_t2v :
  (Fast.new_WanFastGenerator Samples.WAN_CONFIGS Samples.WanVace_loads
     "t2v-14B" (Some "./Wan2.1-T2V-14B") 0 Samples.fresh).1
  = Raise (NotImplementedError "Task t2v-14B not yet supported in fast mode").
Proof.
  destruct (FastFacts.construction_rejects_other_tasks
              Samples.WAN_CONFIGS Samples.WanVace_loads
              "t2v-14B" (Some "./Wan2.1-T2V-14B") 0 Samples.fresh eq_refl)
    as (s' & H & _).
  rewrite H. reflexivity.
Defined.

(** C3 as stated fails: for a task outside the VACE family both acquires
    raise, no instance is returned, and no pipeline is ever loaded,
    although the construction branch is entered twice. *)
Lemma acquire_twice_of_rejected_task_raises_twice :
  let acquire := Fast.get_generator Samples.WAN_CONFIGS Samples.WanVace_loads
                   "t2v-14B" (Some "./Wan2.1-T2V-14B") 0 in
  let first := acquire Samples.fresh in
  let second := acquire first.2 in
  first.1 = Raise (NotImplementedError "Task t2v-14B not yet supported in fast mode") /\
  second.1 = Raise (NotImplementedError "Task t2v-14B not yet supported in fast mode") /\
  Fast.constructions (Fast.trace second.2) = 0 /\
  Fast.creation_attempts (Fast.trace second.2) = 2.
Proof. vm_compute. repeat split. Qed.

(** C3 (amended) on a fresh process: the first acquire builds object 0,
    the second returns it, and one pipeline was loaded. *)
Lemma acquire_twice_of_vace_task_loads_once :
  let acquire := Fast.get_generator Samples.WAN_CONFIGS Samples.WanVace_loads
                   "vace-1.3B" (Some "./Wan2.1-VACE-1.3B") 0 in
  (acquire Samples.fresh).1 = Return 0 /\
  exists s2,
    acquire (acquire Samples.fresh).2 = (Return 0, s2) /\
    Fast.constructions (Fast.trace s2) = 1.
Proof.
  intros acquire. split; [reflexivity|].
  destruct (FastFacts.get_generator_twice_same_instance
              Samples.WAN_CONFIGS Samples.WanVace_loads
              "vace-1.3B" (Some "./Wan2.1-VACE-1.3B") 0
              Samples.fresh (acquire Samples.fresh).2 0 eq_refl)
    as (s2 & H2 & Hc & _).
  exists s2. split; [exact H2|]. rewrite Hc. reflexivity.
Defined.

(** C4 on a fresh process in which the pipeline cannot be loaded. *)
Lemma failed_load_leaves_cache_empty :
  let acquire := Fast.get_generator Samples.WAN_CONFIGS Samples.WanVace_fails
                   "vace-1.3B" (Some "./missing") 0 in
  (acquire Samples.fresh).1
    = Raise (OtherError "FileNotFoundError" "no checkpoint in this directory") /\
  Fast.MODEL_CACHE (acquire Samples.fresh).2 = ∅ /\
  Fast.creation_attempts (Fast.trace (acquire (acquire Samples.fresh).2).2) = 2.
Proof.
  intros acquire.
  destruct (FastFacts.get_generator_failure_not_cached
              Samples.WAN_CONFIGS Samples.WanVace_fails
              "vace-1.3B" (Some "./missing") 0
              Samples.fresh (acquire Samples.fresh).2
              (OtherError "FileNotFoundError" "no checkpoint in this directory")
              eq_refl eq_refl)
    as (H1 & H2 & _ & _ & H5).
  fold acquire in H1, H5. rewrite H1. cbn [fst snd].
  split; [reflexivity|]. split; [reflexivity|].
  rewrite H1 in H5. cbn [fst snd] in H5. rewrite H1. cbn [fst snd]. rewrite H5.
  reflexivity.
Defined.

(** C10 on a fresh process: the second triple gets the object built for
    the first one. *)
Lemma colliding_triples_share_one_instance :
  let s1 := (Fast.get_generator Samples.WAN_CONFIGS Samples.WanVace_loads
               "vace-1.3B" (Some "models_v2") 0 Samples.fresh).2 in
  exists s2 obj,
    Fast.get_generator Samples.WAN_CONFIGS Samples.WanVace_loads
      "vace-1.3B_models" (Some "v2") 0 s1 = (Return 0, s2) /\
    Fast.heap s2 !! 0 = Some obj /\
    (Fast.task obj, Fast.ckpt_dir obj, Fast.device_id obj)
      = ("vace-1.3B", Some "models_v2", 0%Z) /\
    Fast.constructions (Fast.trace s2) = 1.
Proof.
  intros s1.
  destruct (proj2 (FastFacts.cache_key_not_injective
                     Samples.WAN_CONFIGS Samples.WanVace_loads)
              "vace-1.3B" "vace-1.3B_models" (Some "models_v2") (Some "v2") 0%Z 0%Z
              Samples.fresh s1 0 eq_refl eq_refl eq_refl)
    as (s2 & obj & H1 & H2 & H3 & H4).
  exists s2, obj. split; [exact H1|]. split; [exact H2|]. split; [exact H3|].
  rewrite H4. reflexivity.
Defined.

(** *** The generation facade *)

Example negative_seed_is_replaced :
  Fast.seeds_passed
    (Fast.trace
       (Fast.generate id Samples.SIZE_CONFIGS Samples.prepare_source
          Samples.pipeline_generate Samples.cache_video Samples.now_strftime
          Samples.random_draw Samples.vace_generator
          (Samples.request "832*480" (-1)) Samples.fresh).2)
  = [(2 ^ 63 - 5)%Z].
Proof. reflexivity. Qed.

Example given_seed_is_kept :
  Fast.seeds_passed
    (Fast.trace
       (Fast.generate id Samples.SIZE_CONFIGS Samples.prepare_source
          Samples.pipeline_generate Samples.cache_video Samples.now_strftime
          Samples.random_draw Samples.vace_generator
          (Samples.request "832*480" 42) Samples.fresh).2)
  = [42%Z].
Proof. reflexivity. Qed.

Example unknown_size_raises_KeyError :
  Fast.generate id Samples.SIZE_CONFIGS Samples.prepare_source
    Samples.pipeline_generate Samples.cache_video Samples.now_strftime
    Samples.random_draw Samples.vace_generator
    (Samples.request "640*360" 42) Samples.fresh
  = (Raise (KeyError "640*360"),
     Fast.mkState [] ∅ [Fast.LogInfo "Generating video with prompt: a fox"]).
Proof. reflexivity. Qed.

Example known_size_reaches_pipeline :
  Fast.resolutions_used
    (Fast.trace
       (Fast.generate id Samples.SIZE_CONFIGS Samples.prepare_source
          Samples.pipeline_generate Samples.cache_video Samples.now_strftime
          Samples.random_draw Samples.vace_generator
          (Samples.request "832*480" 42) Samples.fresh).2)
  = [(832, 480)%Z; (832, 480)%Z].
Proof. reflexivity. Qed.

(** *** The enhancement CLI *)

(** C1 with a child that exits with code 7. *)
Lemma child_exit_7_is_the_exit_status :
  exit_status
    (FromImage.generate_video Samples.child_exits_7 "python3" "a fox" "t2v-14B"
       "1280*720" "./Wan2.1-T2V-14B" None None []).1 = 7%Z.
Proof.
  apply (FromImageFacts.generate_video_mirrors_exit_code
           Samples.child_exits_7 "python3"
           "a fox" "t2v-14B" "1280*720" "./Wan2.1-T2V-14B" None None [] 7%Z
           eq_refl);
    lia.
Defined.

(** C1 as stated fails: a child killed by signal 9 has return code
    [-9], and the process that ran the invoker exits with 247. *)
Lemma killed_child_is_not_mirrored :
  let run := FromImage.generate_video Samples.child_killed_by_signal_9 "python3"
               "a fox" "t2v-14B" "1280*720" "./Wan2.1-T2V-14B" None None [] in
  Samples.child_killed_by_signal_9 []
    (FromImage.build_cmd "python3" "a fox" "t2v-14B" "1280*720" "./Wan2.1-T2V-14B"
       None None) = Return (-9)%Z /\
  run.1 = Raise (SystemExit (-9)) /\
  exit_status run.1 = 247%Z /\
  exit_status run.1 <> (-9)%Z.
Proof. vm_compute. repeat split; try reflexivity. intros H. discriminate H. Qed.

(** C8 with no file on disk. *)
Lemma missing_image_exits_1 :
  let run := FromImage.main Samples.no_file_exists Samples.read_document
               Samples.read_image Samples.b64encode Samples.suffix_lower
               (Some "sk-test") Samples.endpoint_down Samples.cli_args [] [] in
  run.1 = Raise (SystemExit 1) /\ List.filter FromImage.is_network_call run.2 = [].
Proof.
  intros run.
  destruct (FromImageFacts.main_exits_1_before_any_network_call
              Samples.no_file_exists Samples.read_document
              Samples.read_image Samples.b64encode Samples.suffix_lower
              (Some "sk-test") Samples.endpoint_down Samples.cli_args [] []
              (or_introl eq_refl))
    as (H1 & _ & H3 & _).
  split; [exact H1|exact H3].
Defined.

(** C7 with an endpoint that refuses the connection. *)
Lemma endpoint_down_falls_back :
  let run := FromImage.main Samples.every_file_exists Samples.read_document
               Samples.read_image Samples.b64encode Samples.suffix_lower
               (Some "sk-test") Samples.endpoint_down Samples.cli_args [] [] in
  run.1 = Return "Cartoon fox in snow" /\ exit_status run.1 = 0%Z.
Proof.
  intros run.
  destruct (FromImageFacts.main_falls_back_to_original_prompt
              Samples.every_file_exists Samples.read_document
              Samples.read_image Samples.b64encode Samples.suffix_lower
              (Some "sk-test") Samples.endpoint_down Samples.cli_args [] []
              Samples.document
              (OtherError "APIConnectionError" "Connection error.")
              eq_refl eq_refl eq_refl eq_refl eq_refl eq_refl eq_refl)
    as (H1 & H2 & _).
  split; [exact H1|exact H2].
Defined.

End Scenarios.

(** * Further properties *)

(** ** More on text operations *)

Module TextFacts.
Import Py PyFacts Predicates.

Lemma len_take (n : nat) (s : str) : len (take n s) = Nat.min n (len s).
Proof. revert s. induction n as [|n IH]; intros [|c s]; simpl; auto. Qed.

Lemma len_drop (n : nat) (s : str) : len (drop n s) = len s - n.
Proof. revert s. induction n as [|n IH]; intros [|c s]; simpl; auto. Qed.

(** [p in s] holds exactly when [s] is some text, [p], some text. *)
Lemma contains_true (p s : str) :
  contains p s = true <-> exists x y, s = x +:+ p +:+ y.
Proof.
  split.
  - intros H. destruct (partition p s) as [[b a]|] eqn:P.
    + exists b, a. by apply partition_sound.
    + apply contains_partition in P. congruence.
  - intros (x & y & ->). destruct (contains p _) eqn:C; [done|].
    apply contains_partition in C. by destruct (partition_None _ _ C x y).
Qed.

Lemma contains_false (p s : str) :
  contains p s = false <-> forall x y, s <> x +:+ p +:+ y.
Proof.
  split.
  - intros H x y ->. assert (contains p (x +:+ p +:+ y) = true) as H'
      by (apply contains_true; eauto). congruence.
  - intros H. destruct (contains p s) eqn:C; [|done].
    apply contains_true in C as (x & y & ->). by destruct (H x y).
Qed.

(** A text without [p] has no part with [p]. *)
Lemma contains_infix (p l s r : str) :
  contains p (l +:+ s +:+ r) = false -> contains p s = false.
Proof.
  intros H. apply contains_false. intros x y ->.
  apply (proj1 (contains_false _ _) H (l +:+ x) (y +:+ r)).
  by rewrite !app_assoc.
Qed.

Lemma contains_app_l (p s r : str) :
  contains p (s +:+ r) = false -> contains p s = false.
Proof. intros H. apply (contains_infix p EmptyStr s r). by rewrite app_nil. Qed.

Lemma contains_app_r (p l s : str) :
  contains p (l +:+ s) = false -> contains p s = false.
Proof. intros H. apply (contains_infix p l s EmptyStr). by rewrite app_nil_r. Qed.

(** *** Trimming *)

Lemma lstrip_suffix (s : str) : exists l, s = l +:+ lstrip s.
Proof.
  induction s as [|c s [l IH]]; [by exists EmptyStr|]. simpl.
  destruct (isspace c); [|by exists EmptyStr].
  exists (Str c l). by rewrite app_cons, <- IH.
Qed.

Lemma rstrip_prefix (s : str) : exists r, s = rstrip s +:+ r.
Proof.
  induction s as [|c s [r IH]]; [by exists EmptyStr|]. simpl.
  destruct (rstrip s) as [|c' s'] eqn:R.
  - destruct (isspace c).
    + by exists (Str c s).
    + exists r. rewrite app_cons. f_equal. by rewrite IH, app_nil.
  - exists r. rewrite app_cons. by f_equal.
Qed.

Lemma strip_infix (s : str) : exists l r, s = l +:+ strip s +:+ r.
Proof.
  unfold strip. destruct (lstrip_suffix s) as [l Hl].
  destruct (rstrip_prefix (lstrip s)) as [r Hr].
  exists l, r. by rewrite <- Hr.
Qed.

Lemma len_lstrip (s : str) : len (lstrip s) <= len s.
Proof.
  induction s as [|c s IH]; [done|]. simpl. destruct (isspace c); simpl; lia.
Qed.

Lemma rstrip_idempotent (s : str) : rstrip (rstrip s) = rstrip s.
Proof.
  induction s as [|c s IH]; [done|]. simpl.
  destruct (rstrip s) as [|c' s'] eqn:R.
  - destruct (isspace c) eqn:E; [done|]. simpl. by rewrite E.
  - simpl. simpl in IH. destruct (rstrip s') as [|c'' s''] eqn:R'.
    + destruct (isspace c') eqn:E'; [done|]. by injection IH as ->.
    + by rewrite IH.
Qed.

(** A text that is not empty and does not start with white space keeps
    its first character under [rstrip]. *)
Lemma lstrip_rstrip (s : str) : lstrip s = s -> lstrip (rstrip s) = rstrip s.
Proof.
  destruct s as [|c s]; [done|]. simpl.
  destruct (isspace c) eqn:E.
  - intros H. pose proof (len_lstrip s) as Hl. rewrite H in Hl. simpl in Hl. lia.
  - intros _. destruct (rstrip s); simpl; by rewrite E.
Qed.

Lemma lstrip_idempotent (s : str) : lstrip (lstrip s) = lstrip s.
Proof.
  induction s as [|c s IH]; [done|]. simpl.
  destruct (isspace c) eqn:E; [done|]. simpl. by rewrite E.
Qed.

Lemma strip_idempotent (s : str) : strip (strip s) = strip s.
Proof.
  unfold strip.
  rewrite (lstrip_rstrip (lstrip s)) by apply lstrip_idempotent.
  apply rstrip_idempotent.
Qed.

(** *** Pieces of a split *)

Lemma partition_before_free (sep s b a : str) :
  sep <> EmptyStr -> partition sep s = Some (b, a) -> contains sep b = false.
Proof.
  intros Hne P. destruct (contains sep b) eqn:C; [|done].
  apply contains_true in C as (x & y & ->).
  pose proof (partition_sound _ _ _ _ P) as Hs.
  rewrite !app_assoc in Hs.
  pose proof (partition_first _ _ _ _ P x _ Hs) as Hlen.
  rewrite !len_app in Hlen. destruct sep; [done|]. simpl in Hlen. lia.
Qed.

Lemma split_rounds_pieces (sep : str) (n : nat) (s : str) (P : str -> Prop) :
  sep <> EmptyStr -> len s <= n ->
  (forall whole b a, partition sep whole = Some (b, a) -> P whole -> P b /\ P a) ->
  P s -> Forall P (split_rounds n sep s).
Proof.
  intros Hne Hn Hstep. revert s Hn.
  induction n as [|n IH]; intros s Hn Hs; simpl; [by constructor|].
  destruct (partition sep s) as [[b a]|] eqn:Hp; [|by constructor].
  destruct (Hstep _ _ _ Hp Hs) as [Hb Ha].
  constructor; [done|]. apply IH; [|done].
  pose proof (partition_shorter _ _ _ _ Hne Hp). lia.
Qed.

(** No piece of [s.split(sep)] contains [sep]. *)
Lemma split_pieces_free (sep s : str) :
  sep <> EmptyStr -> Forall (fun x => contains sep x = false) (split sep s).
Proof.
  intros Hne. unfold split.
  assert (forall n t, len t <= n ->
            Forall (fun x => contains sep x = false) (split_rounds n sep t)) as H.
  { induction n as [|n IH]; intros t Hn; simpl.
    - destruct t; [|simpl in Hn; lia]. constructor; [|done].
      destruct sep; [done|]. done.
    - destruct (partition sep t) as [[b a]|] eqn:Hp.
      + constructor; [by eapply partition_before_free|]. apply IH.
        pose proof (partition_shorter _ _ _ _ Hne Hp). lia.
      + constructor; [|done]. by apply contains_partition. }
  by apply H.
Qed.

(** Every piece of [s.split(sep)] is a part of [s]. *)
Lemma split_pieces_infix (sep s : str) :
  sep <> EmptyStr ->
  Forall (fun x => exists l r, s = l +:+ x +:+ r) (split sep s).
Proof.
  intros Hne. unfold split.
  apply (split_rounds_pieces sep (len s) s
           (fun x => exists l r, s = l +:+ x +:+ r)); [done|done| |].
  - intros whole b a Hp (l & r & ->). apply partition_sound in Hp as ->. split.
    + exists l, (sep +:+ a +:+ r). by rewrite !app_assoc.
    + exists (l +:+ b +:+ sep), r. by rewrite !app_assoc.
  - exists EmptyStr, EmptyStr. by rewrite app_nil, app_nil_r.
Qed.

(** [sep.join(s.split(sep))] is [s]. *)
Lemma join_split (sep s : str) :
  sep <> EmptyStr -> join sep (split sep s) = s.
Proof.
  intros Hne. unfold split.
  assert (forall n t, len t <= n -> join sep (split_rounds n sep t) = t) as H.
  { induction n as [|n IH]; intros t Hn; simpl; [done|].
    destruct (partition sep t) as [[b a]|] eqn:Hp; [|done].
    pose proof (partition_shorter _ _ _ _ Hne Hp).
    pose proof (IH a ltac:(lia)) as Ha.
    apply partition_sound in Hp as ->.
    destruct (split_rounds n sep a) as [|x l] eqn:E.
    - destruct n; simpl in E; [done|]. by destruct (partition sep a) as [[??]|].
    - change (join sep (b :: x :: l)) with (b +:+ sep +:+ join sep (x :: l)).
      by rewrite Ha. }
  by apply H.
Qed.

Lemma split_nonempty (sep s : str) : split sep s <> [].
Proof.
  unfold split. destruct (len s); simpl; [done|].
  by destruct (partition sep s) as [[??]|].
Qed.

(** *** Texts without a given character *)

Lemma lacks_cons (c a : char) (s : str) :
  lacks c (Str a s) <-> c <> a /\ lacks c s.
Proof.
  unfold lacks. simpl. destruct (decide (c = a)) as [->|Hne].
  - split; [done|]. by intros [? _].
  - split; [by intros H|]. by intros [_ H].
Qed.

Lemma lacks_app (c : char) (s t : str) :
  lacks c (s +:+ t) <-> lacks c s /\ lacks c t.
Proof.
  induction s as [|a s IH].
  - rewrite app_nil. split; [by intros H|]. by intros [_ H].
  - rewrite app_cons, !lacks_cons, IH. tauto.
Qed.

Lemma lacks_infix (c : char) (l s r : str) :
  lacks c (l +:+ s +:+ r) -> lacks c s.
Proof. apply contains_infix. Qed.

Lemma lacks_strip (c : char) (s : str) : lacks c s -> lacks c (strip s).
Proof.
  destruct (strip_infix s) as (l & r & H). intros Hs. rewrite H in Hs.
  by apply lacks_infix in Hs.
Qed.

Lemma lacks_take (c : char) (n : nat) (s : str) : lacks c s -> lacks c (take n s).
Proof.
  intros Hs. rewrite <- (take_drop n s) in Hs. by apply lacks_app in Hs as [? _].
Qed.

Lemma lacks_join (c : char) (sep : str) (l : list str) :
  lacks c sep -> Forall (lacks c) l -> lacks c (join sep l).
Proof.
  intros Hsep. induction 1 as [|x l Hx Hl IH]; [done|].
  simpl. destruct l as [|y l]; [done|].
  apply lacks_app. split; [done|]. apply lacks_app. by split.
Qed.

Lemma lacks_split (c : char) (sep s : str) :
  sep <> EmptyStr -> lacks c s -> Forall (lacks c) (split sep s).
Proof.
  intros Hne Hs. eapply Forall_impl; [by apply split_pieces_infix|].
  intros x (l & r & ->). by apply lacks_infix in Hs.
Qed.

(** [s.replace(old, new)] has no [c] when neither [s] nor [new] has. *)
Lemma lacks_replace (c : char) (old new s : str) :
  old <> EmptyStr -> lacks c new -> lacks c s -> lacks c (replace old new s).
Proof. intros. apply lacks_join; [done|]. by apply lacks_split. Qed.

(** [s.replace(c, new)] has no [c] when [new] has none. *)
Lemma replace_removes (c : char) (new s : str) :
  lacks c new -> lacks c (replace (Str c EmptyStr) new s).
Proof. intros. apply lacks_join; [done|]. by apply split_pieces_free. Qed.

(** Replacing one character by another works character by character. *)
Lemma replace_char (c d : char) (s : str) :
  replace (Str c EmptyStr) (Str d EmptyStr) s
  = map_chars (fun x => if decide (x = c) then d else x) s.
Proof.
  unfold replace. induction s as [|x s IH].
  - reflexivity.
  - rewrite split_unfold by done. cbn [partition startswith map_chars].
    destruct (decide (c = x)) as [->|Hne].
    + rewrite decide_True by done. cbn [len drop].
      pose proof (split_nonempty (Str x EmptyStr) s) as Hs.
      destruct (split (Str x EmptyStr) s) as [|p l] eqn:E; [done|].
      change (join (Str d EmptyStr) (EmptyStr :: p :: l))
        with (EmptyStr +:+ Str d EmptyStr +:+ join (Str d EmptyStr) (p :: l)).
      by rewrite app_nil, app_cons, app_nil, IH.
    + rewrite decide_False by done.
      rewrite split_unfold in IH by done.
      destruct (partition (Str c EmptyStr) s) as [[b a]|].
      * destruct (split (Str c EmptyStr) a) as [|p l].
        -- cbn [join] in *. by rewrite IH.
        -- change (join (Str d EmptyStr) (Str x b :: p :: l))
             with (Str x b +:+ Str d EmptyStr +:+ join (Str d EmptyStr) (p :: l)).
           change (join (Str d EmptyStr) (b :: p :: l))
             with (b +:+ Str d EmptyStr +:+ join (Str d EmptyStr) (p :: l)) in IH.
           by rewrite app_cons, IH.
      * cbn [join] in *. by f_equal.
Qed.

Lemma map_chars_take (f : char -> char) (n : nat) (s : str) :
  take n (map_chars f s) = map_chars f (take n s).
Proof. revert s. induction n as [|n IH]; intros [|c s]; simpl; [done..|]. by rewrite IH. Qed.

Lemma map_chars_compose (f g : char -> char) (s : str) :
  map_chars g (map_chars f s) = map_chars (fun c => g (f c)) s.
Proof. induction s as [|c s IH]; simpl; [done|]. by rewrite IH. Qed.

Lemma map_chars_ext (f g : char -> char) (s : str) :
  (forall c, f c = g c) -> map_chars f s = map_chars g s.
Proof. intros H. induction s as [|c s IH]; simpl; [done|]. by rewrite H, IH. Qed.

Lemma len_map_chars (f : char -> char) (s : str) : len (map_chars f s) = len s.
Proof. induction s as [|c s IH]; simpl; [done|]. by rewrite IH. Qed.

(** The sanitized part of a made-up file name, as the code computes
    it. *)
Lemma sanitized_prefix (n : nat) (s : str) :
  take n (replace "/" "_" (replace " " "_" s)) = map_chars sanitized (take n s).
Proof.
  change (take n (replace (Str "/" EmptyStr) (Str "_" EmptyStr)
                    (replace (Str " " EmptyStr) (Str "_" EmptyStr) s))
          = map_chars sanitized (take n s)).
  rewrite !replace_char, map_chars_compose, map_chars_take.
  apply map_chars_ext. intros c. unfold sanitized.
  destruct (decide (c = " "%chr)) as [->|]; [done|].
  by destruct (decide (c = "/"%chr)).
Qed.

End TextFacts.

(** ** More on the reasoning-file parser *)

Module ParserMore.
Import Py PyFacts Predicates TextFacts FromImage.

(** The record built when the marker occurs: the text is cut at every
    marker, the first two parts are read. *)
Lemma split_reasoning_marker_form (content before after : str) :
  partition END_OF_REASONING content = Some (before, after) ->
  split_reasoning content =
    mkReasoningData (strip before)
      (extract_prompt (strip (hd EmptyStr (split END_OF_REASONING after)))).
Proof.
  intros P. unfold split_reasoning.
  rewrite (split_unfold _ _ ParserFacts.marker_nonempty), P.
  pose proof (split_nonempty END_OF_REASONING after).
  by destruct (split END_OF_REASONING after).
Qed.

Lemma scan_for_prompt_trimmed (lines : list str) :
  strip (scan_for_prompt lines) = scan_for_prompt lines.
Proof.
  induction lines as [|l lines IH]; [done|]. simpl.
  destruct (is_cue_line l); [apply strip_idempotent|done].
Qed.

Lemma extract_prompt_trimmed (remaining : str) :
  strip remaining = remaining -> strip (extract_prompt remaining) = extract_prompt remaining.
Proof.
  intros H. unfold extract_prompt.
  destruct (truthy _); [apply scan_for_prompt_trimmed|done].
Qed.

(** X1. with a marker in the text both fields come out trimmed. *)
Theorem split_reasoning_fields_trimmed (content : str) :
  contains END_OF_REASONING content = true ->
  strip (reasoning (split_reasoning content)) = reasoning (split_reasoning content) /\
  strip (original_prompt (split_reasoning content))
    = original_prompt (split_reasoning content).
Proof.
  intros C. destruct (partition END_OF_REASONING content) as [[b a]|] eqn:P.
  - rewrite (split_reasoning_marker_form _ _ _ P). simpl. split.
    + apply strip_idempotent.
    + apply extract_prompt_trimmed, strip_idempotent.
  - apply contains_partition in P. congruence.
Qed.

(** X2. without a marker the two fields are the two halves of the text. *)
Theorem split_reasoning_halves (content : str) :
  contains END_OF_REASONING content = false ->
  reasoning (split_reasoning content) +:+ original_prompt (split_reasoning content)
    = content /\
  len (reasoning (split_reasoning content)) = len content / 2 /\
  len (original_prompt (split_reasoning content)) = len content - len content / 2.
Proof.
  intros C. unfold split_reasoning.
  rewrite (split_absent _ _ ParserFacts.marker_nonempty C).
  cbn [reasoning original_prompt].
  split; [apply take_drop|]. rewrite len_take, len_drop. split; [|done].
  apply Nat.min_l, Nat.Div0.div_le_upper_bound. lia.
Qed.

(** X3. the reasoning never contains the marker. *)
Theorem reasoning_never_contains_marker (content : str) :
  contains END_OF_REASONING (reasoning (split_reasoning content)) = false.
Proof.
  destruct (partition END_OF_REASONING content) as [[b a]|] eqn:P.
  - rewrite (split_reasoning_marker_form _ _ _ P). simpl.
    pose proof (partition_before_free _ _ _ _ ParserFacts.marker_nonempty P) as Hb.
    destruct (strip_infix b) as (l & r & Hs). rewrite Hs in Hb.
    by apply contains_infix in Hb.
  - apply contains_partition in P. unfold split_reasoning.
    rewrite (split_absent _ _ ParserFacts.marker_nonempty P).
    cbn [reasoning original_prompt].
    rewrite <- (take_drop (len content / 2) content) in P.
    by apply contains_app_l in P.
Qed.

Lemma extract_prompt_empty (remaining : str) :
  extract_prompt remaining = EmptyStr <-> remaining = EmptyStr.
Proof.
  unfold extract_prompt. split.
  - cbv zeta. by destruct (scan_for_prompt (split nl remaining)).
  - intros ->. reflexivity.
Qed.

(** X4. when is the prompt empty. *)
Theorem original_prompt_empty_iff (content : str) :
  original_prompt (split_reasoning content) = EmptyStr <->
  match partition END_OF_REASONING content with
  | Some (_, after) => strip (hd EmptyStr (split END_OF_REASONING after)) = EmptyStr
  | None => content = EmptyStr
  end.
Proof.
  destruct (partition END_OF_REASONING content) as [[b a]|] eqn:P.
  - rewrite (split_reasoning_marker_form _ _ _ P). simpl. apply extract_prompt_empty.
  - apply contains_partition in P. unfold split_reasoning.
    rewrite (split_absent _ _ ParserFacts.marker_nonempty P).
    cbn [reasoning original_prompt].
    split.
    + intros H. assert (len (drop (len content / 2) content) = 0) as Hl by by rewrite H.
      rewrite len_drop in Hl. destruct content as [|c s]; [done|].
      exfalso. simpl len in Hl.
      assert (S (len s) / 2 < S (len s)) by (apply Nat.div_lt; lia). lia.
    + by intros ->.
Qed.

Lemma nl_lacks_space : lacks 10%N " ".
Proof. reflexivity. Qed.

(** The prompt built by the cue-line loop is one line. *)
Lemma scan_for_prompt_one_line (lines : list str) :
  Forall (lacks 10%N) lines ->
  lacks 10%N (scan_for_prompt lines).
Proof.
  induction 1 as [|l lines Hl Hlines IH]; [done|]. simpl.
  destruct (is_cue_line l); [|done].
  apply lacks_strip, lacks_replace; [done|done|].
  apply lacks_join; [apply nl_lacks_space|].
  unfold collect_prompt_lines.
  apply List.Forall_forall. intros x Hx.
  apply filter_In in Hx as [Hx _]. apply in_map_iff in Hx as (y & <- & Hy).
  apply lacks_strip.
  assert (Forall (lacks 10%N) (l :: lines)) as Hall by by constructor.
  rewrite List.Forall_forall in Hall. by apply Hall.
Qed.

(** X5. a prompt with a line feed is the trimmed remainder itself. *)
Theorem cue_prompt_is_one_line (content before after : str) :
  partition END_OF_REASONING content = Some (before, after) ->
  original_prompt (split_reasoning content)
    = strip (hd EmptyStr (split END_OF_REASONING after)) \/
  contains nl (original_prompt (split_reasoning content)) = false.
Proof.
  intros P. rewrite (split_reasoning_marker_form _ _ _ P). simpl.
  unfold extract_prompt. destruct (truthy _); [right|by left].
  apply scan_for_prompt_one_line. apply split_pieces_free. done.
Qed.

End ParserMore.

(** ** More on the generator cache *)

Module CacheFacts.
Import Py Fast Predicates.

Section Facts.
Context {Config Pipeline Tensor Float : Type}.
Variable WAN_CONFIGS : gmap str Config.
Variable WanVace :
  list (@event Config Pipeline Tensor Float) ->
  Config -> option str -> Z -> outcome Pipeline.

Local Abbreviation state := (@state Config Pipeline Tensor Float).
Local Abbreviation new_WanFastGenerator :=
  (Fast.new_WanFastGenerator WAN_CONFIGS WanVace).
Local Abbreviation get_generator := (Fast.get_generator WAN_CONFIGS WanVace).
Local Abbreviation cache_consistent := (Predicates.cache_consistent WAN_CONFIGS).
Local Abbreviation announced s :=
  (mkState (heap s) (MODEL_CACHE s)
     (LogInfo "Creating new generator (first run - will be slow)" :: trace s)).

(** What an acquire does to the heap and the cache: nothing, or one new
    object at the end of the heap and its reference under the key. *)
Lemma acquire_effect (t : str) (c : option str) (d : Z) (s : state) :
  let s' := (get_generator t c d s).2 in
  (heap s' = heap s /\ MODEL_CACHE s' = MODEL_CACHE s) \/
  (MODEL_CACHE s !! cache_key t c d = None /\
   (get_generator t c d s).1 = Return (length (heap s)) /\
   contains "vace" t = true /\
   exists cfg_ p,
     WAN_CONFIGS !! t = Some cfg_ /\
     heap s' = heap s ++ [mkWanFastGenerator t c d cfg_ p] /\
     MODEL_CACHE s' = <[cache_key t c d := length (heap s)]> (MODEL_CACHE s)).
Proof.
  cbv zeta. destruct (MODEL_CACHE s !! cache_key t c d) as [g|] eqn:Hk.
  - left. by rewrite (FastFacts.acquire_hit _ _ _ _ _ _ _ Hk).
  - rewrite (FastFacts.acquire_miss _ _ _ _ _ _ Hk).
    destruct (new_WanFastGenerator t c d _) as [[g|e] s'] eqn:Hn.
    + right. apply FastFacts.new_returns in Hn
        as (-> & (cfg_ & p & Hcfg & Hh) & Hv & Hc & _).
      cbn in *. repeat split; [done|]. exists cfg_, p. by rewrite Hc.
    + left. apply FastFacts.new_raises in Hn as (Hh & Hc & _). done.
Qed.

Lemma acquire_returns_cached (t : str) (c : option str) (d : Z)
    (s s' : state) (g : nat) :
  get_generator t c d s = (Return g, s') ->
  MODEL_CACHE s' !! cache_key t c d = Some g.
Proof.
  destruct (MODEL_CACHE s !! cache_key t c d) as [g0|] eqn:Hk.
  - rewrite (FastFacts.acquire_hit _ _ _ _ _ _ _ Hk). by intros [= <- <-].
  - rewrite (FastFacts.acquire_miss _ _ _ _ _ _ Hk).
    destruct (new_WanFastGenerator t c d _) as [[g'|e] s1]; [|done].
    intros [= <- <-]. cbn. apply lookup_insert_eq.
Qed.

Lemma acquire_consistent (t : str) (c : option str) (d : Z) (s : state) :
  cache_consistent s -> cache_consistent (get_generator t c d s).2.
Proof.
  intros Hs. destruct (acquire_effect t c d s) as [[Hh Hc]|(Hk & _ & Hv & cfg_ & p & Hcfg & Hh & Hc)];
    cbv zeta in *; intros k g; rewrite Hc, Hh.
  - apply Hs.
  - intros Hkg. apply lookup_insert_Some in Hkg as [[<- <-]|[Hne Hkg]].
    + eexists. split; [by rewrite lookup_app_r, Nat.sub_diag|]. done.
    + destruct (Hs k g Hkg) as (obj & Ho & Hrest).
      exists obj. split; [|done]. by apply lookup_app_l_Some.
Qed.

Lemma acquire_subseteq (t : str) (c : option str) (d : Z) (s : state) :
  MODEL_CACHE s ⊆ MODEL_CACHE (get_generator t c d s).2 /\
  heap s `prefix_of` heap (get_generator t c d s).2.
Proof.
  destruct (acquire_effect t c d s) as [[Hh Hc]|(Hk & _ & _ & cfg_ & p & _ & Hh & Hc)];
    cbv zeta in *; rewrite Hc, Hh.
  - done.
  - split; [by apply insert_subseteq|]. by apply prefix_app_r.
Qed.

(** An acquire calls nothing but the constructor of the pipeline. *)
Lemma acquire_no_pipeline_event (t : str) (c : option str) (d : Z) (s : state) :
  List.filter is_pipeline_work (trace (get_generator t c d s).2)
    = List.filter is_pipeline_work (trace s) /\
  List.filter is_cache_video (trace (get_generator t c d s).2)
    = List.filter is_cache_video (trace s).
Proof.
  destruct (MODEL_CACHE s !! cache_key t c d) as [g|] eqn:Hk.
  - by rewrite (FastFacts.acquire_hit _ _ _ _ _ _ _ Hk).
  - rewrite (FastFacts.acquire_miss _ _ _ _ _ _ Hk).
    unfold Fast.new_WanFastGenerator, bind.
    pose proof (FastFacts.init_cases WAN_CONFIGS WanVace t c d (announced s)) as Hi.
    destruct (WAN_CONFIGS !! t) as [cfg_|]; [|by rewrite Hi].
    cbv zeta in Hi. destruct (contains "vace" t); [|by rewrite Hi].
    destruct (WanVace _ cfg_ c d) as [p|e]; by rewrite Hi.
Qed.

Lemma acquire_constructions (t : str) (c : option str) (d : Z)
    (s s1 : state) (g : nat) :
  get_generator t c d s = (Return g, s1) ->
  constructions (trace s1) =
    constructions (trace s) +
    match MODEL_CACHE s !! cache_key t c d with None => 1 | Some _ => 0 end.
Proof.
  destruct (MODEL_CACHE s !! cache_key t c d) as [g0|] eqn:Hk.
  - rewrite (FastFacts.acquire_hit _ _ _ _ _ _ _ Hk). intros [= <- <-].
    unfold constructions. cbn. lia.
  - rewrite (FastFacts.acquire_miss _ _ _ _ _ _ Hk).
    destruct (new_WanFastGenerator t c d _) as [[g'|e] s'] eqn:Hn; [|done].
    intros [= <- <-].
    apply FastFacts.new_returns in Hn as (_ & _ & _ & _ & Hc & _).
    cbn [trace]. rewrite Hc. unfold constructions. cbn. lia.
Qed.

(** *** Properties *)

(** X6. An acquire keeps the cache consistent: every entry still refers
    to a heap object built for a triple with the entry's key. *)
Theorem get_generator_keeps_cache_consistent
    (t : str) (c : option str) (d : Z) (s : state) :
  cache_consistent s -> cache_consistent (get_generator t c d s).2.
Proof. apply acquire_consistent. Qed.

(** X7. From a consistent cache, the reference an acquire returns is
    that of a heap object; the object is cached under the requested key,
    its own triple has that key, and its task is a VACE task. *)
Theorem get_generator_returns_live_object
    (t : str) (c : option str) (d : Z) (s s' : state) (g : nat) :
  cache_consistent s ->
  get_generator t c d s = (Return g, s') ->
  exists obj,
    heap s' !! g = Some obj /\
    MODEL_CACHE s' !! cache_key t c d = Some g /\
    cache_key (task obj) (ckpt_dir obj) (device_id obj) = cache_key t c d /\
    contains "vace" (task obj) = true.
Proof.
  intros Hs Hg. pose proof (acquire_consistent t c d s Hs) as Hs'.
  rewrite Hg in Hs'. cbn in Hs'.
  pose proof (acquire_returns_cached _ _ _ _ _ _ Hg) as Hk.
  destruct (Hs' _ _ Hk) as (obj & Ho & Hkey & Hv & _). by exists obj.
Qed.

(** X8. An acquire never evicts or replaces an entry and never changes an
    object: the old cache is part of the new one, the only key that may
    be new is the requested one, and the old heap is a prefix of the new
    one. *)
Theorem get_generator_only_adds
    (t : str) (c : option str) (d : Z) (s : state) :
  MODEL_CACHE s ⊆ MODEL_CACHE (get_generator t c d s).2 /\
  dom (MODEL_CACHE (get_generator t c d s).2)
    ⊆ dom (MODEL_CACHE s) ∪ {[cache_key t c d]} /\
  heap s `prefix_of` heap (get_generator t c d s).2.
Proof.
  destruct (acquire_subseteq t c d s) as [Hsub Hpre].
  split; [done|]. split; [|done].
  destruct (acquire_effect t c d s) as [[_ Hc]|(_ & _ & _ & cfg_ & p & _ & _ & Hc)];
    cbv zeta in *; rewrite Hc.
  - apply union_subseteq_l.
  - rewrite dom_insert_L. by rewrite (comm_L (∪)).
Qed.

(** X9. From a consistent cache, two acquires whose keys differ return
    different instances. *)
Theorem distinct_keys_get_distinct_instances
    (t1 t2 : str) (c1 c2 : option str) (d1 d2 : Z)
    (s s1 s2 : state) (g1 g2 : nat) :
  cache_consistent s ->
  get_generator t1 c1 d1 s = (Return g1, s1) ->
  get_generator t2 c2 d2 s1 = (Return g2, s2) ->
  cache_key t1 c1 d1 <> cache_key t2 c2 d2 ->
  g1 <> g2.
Proof.
  intros Hs H1 H2 Hne ->.
  pose proof (acquire_consistent t1 c1 d1 s Hs) as Hs1. rewrite H1 in Hs1.
  pose proof (acquire_consistent t2 c2 d2 s1 Hs1) as Hs2. rewrite H2 in Hs2.
  cbn in Hs2.
  pose proof (acquire_returns_cached _ _ _ _ _ _ H1) as Hk1.
  pose proof (acquire_returns_cached _ _ _ _ _ _ H2) as Hk2.
  destruct (acquire_subseteq t2 c2 d2 s1) as [Hsub _]. rewrite H2 in Hsub.
  cbn in Hsub. eapply lookup_weaken in Hk1; [|exact Hsub].
  destruct (Hs2 _ _ Hk1) as (o1 & Ho1 & Hkey1 & _).
  destruct (Hs2 _ _ Hk2) as (o2 & Ho2 & Hkey2 & _).
  congruence.
Qed.

End Facts.

(** *** The key *)

Lemma of_ascii_inj (s t : string) : of_ascii s = of_ascii t -> s = t.
Proof.
  revert t. induction s as [|a s IH]; intros [|b t] H; try done.
  injection H as Hc H. apply (f_equal ascii_of_N) in Hc.
  rewrite !ascii_N_embedding in Hc. by rewrite Hc, (IH t H).
Qed.

Lemma pretty_N_go_lacks (c : char) (x : N) (s : string) :
  (forall n, N_of_ascii (pretty_N_char n) <> c) ->
  lacks c (of_ascii s) -> lacks c (of_ascii (pretty_N_go x s)).
Proof.
  intros Hc. revert s. induction (N.lt_wf_0 x) as [x _ IH]. intros s Hs.
  destruct (decide (x = 0)%N) as [->|Hx].
  - by rewrite pretty_N_go_0.
  - rewrite pretty_N_go_step by lia.
    apply IH; [apply N.div_lt; lia|]. cbn [of_ascii].
    apply TextFacts.lacks_cons. split; [|done].
    intros Heq. by apply (Hc (x `mod` 10)%N).
Qed.

Lemma format_int_lacks_underscore (d : Z) : lacks "_" (format_int d).
Proof.
  assert (forall n, N_of_ascii (pretty_N_char n) <> "_"%chr) as Hc.
  { intros n. unfold pretty_N_char. by repeat case_match. }
  assert (forall p : positive, lacks "_" (of_ascii (pretty p))) as Hp.
  { intros p. unfold pretty, pretty_positive, pretty, pretty_N.
    destruct (decide (N.pos p = 0)%N); [done|]. by apply pretty_N_go_lacks. }
  unfold format_int, pretty, pretty_Z. destruct d as [|p|p]; [done|apply Hp|].
  change (lacks "_" (Str "-" (of_ascii (pretty p)))).
  apply TextFacts.lacks_cons. split; [done|apply Hp].
Qed.

(** Two texts cut at their first underscore. *)
Lemma cut_at_first_underscore (a b x y : str) :
  lacks "_" a -> lacks "_" b ->
  a +:+ "_" +:+ x = b +:+ "_" +:+ y -> a = b /\ x = y.
Proof.
  revert b. induction a as [|c a IH]; intros [|c' b] Ha Hb H;
    rewrite ?PyFacts.app_cons, ?PyFacts.app_nil in H.
  - by injection H.
  - injection H as <- _. by apply TextFacts.lacks_cons in Hb as [? _].
  - injection H as -> _. by apply TextFacts.lacks_cons in Ha as [? _].
  - injection H as <- H. apply TextFacts.lacks_cons in Ha as [_ Ha].
    apply TextFacts.lacks_cons in Hb as [_ Hb].
    by destruct (IH b Ha Hb H) as [-> ->].
Qed.

(** Two texts cut at their last underscore. *)
Lemma cut_at_last_underscore (a b x y : str) :
  lacks "_" x -> lacks "_" y ->
  a +:+ "_" +:+ x = b +:+ "_" +:+ y -> a = b /\ x = y.
Proof.
  intros Hx Hy. revert b. induction a as [|c a IH]; intros [|c' b] H;
    rewrite ?PyFacts.app_cons, ?PyFacts.app_nil in H.
  - by injection H.
  - injection H as _ H. subst x. apply TextFacts.lacks_app in Hx as [_ Hx].
    by apply TextFacts.lacks_cons in Hx as [? _].
  - injection H as _ H. subst y. apply TextFacts.lacks_app in Hy as [_ Hy].
    by apply TextFacts.lacks_cons in Hy as [? _].
  - injection H as <- H. by destruct (IH b H) as [-> ->].
Qed.

(** X10. For task names without an underscore the key determines the
    task, the device id and the printed checkpoint directory. *)
Theorem cache_key_injective_on_plain_tasks
    (t1 t2 : str) (c1 c2 : option str) (d1 d2 : Z) :
  lacks "_" t1 -> lacks "_" t2 ->
  cache_key t1 c1 d1 = cache_key t2 c2 d2 ->
  t1 = t2 /\ format_opt c1 = format_opt c2 /\ d1 = d2.
Proof.
  intros H1 H2 Hk. unfold cache_key in Hk.
  apply cut_at_first_underscore in Hk as [-> Hk]; [|done..].
  apply cut_at_last_underscore in Hk as [-> Hk];
    [|apply format_int_lacks_underscore..].
  split; [done|]. split; [done|]. by apply (inj pretty), of_ascii_inj.
Qed.

End CacheFacts.

(** ** More on the generation facade *)

Module GenerateFacts.
Import Py Fast Predicates.

Section Facts.
Context {Config Pipeline Tensor Float : Type}.
Variable sample_fps : Config -> Z.
Variable SIZE_CONFIGS : gmap str (Z * Z).
Variable prepare_source :
  list (@event Config Pipeline Tensor Float) ->
  Pipeline -> option (list (list str)) -> Z -> Z * Z -> Z ->
  outcome (Tensor * Tensor * Tensor).
Variable pipeline_generate :
  list (@event Config Pipeline Tensor Float) ->
  Pipeline -> str -> Tensor * Tensor * Tensor -> Z * Z -> Z ->
  Float -> str -> Z -> Float -> Z -> bool -> outcome Tensor.
Variable cache_video :
  list (@event Config Pipeline Tensor Float) ->
  Tensor -> str -> Z -> outcome unit.
Variable now_strftime : list (@event Config Pipeline Tensor Float) -> str.
Variable random_draw : list (@event Config Pipeline Tensor Float) -> Z.

Local Abbreviation state := (@state Config Pipeline Tensor Float).
Local Abbreviation generate :=
  (Fast.generate sample_fps SIZE_CONFIGS prepare_source pipeline_generate
     cache_video now_strftime random_draw).

(** The whole run of [generate], stage by stage. *)
Lemma generate_stages (self : WanFastGenerator) (a : GenerateArgs) (s : state) :
  let st := mkState (heap s) (MODEL_CACHE s) in
  let seed := if (base_seed a <? 0)%Z
              then (0 + random_draw (interactions (trace s)) mod (sys_maxsize - 0 + 1))%Z
              else base_seed a in
  let refs := if truthy_opt (src_ref_images a)
              then Some [split "," (format_opt (src_ref_images a))] else None in
  let h0 := (if truthy_opt (src_ref_images a)
             then [LogRefImages [split "," (format_opt (src_ref_images a))]] else [])
            ++ (if (base_seed a <? 0)%Z then [CallRandint 0 sys_maxsize] else [])
            ++ LogInfo ("Generating video with prompt: " +:+ prompt a) :: trace s in
  generate self a s =
    match SIZE_CONFIGS !! size a with
    | None => (Raise (KeyError (size a)), st h0)
    | Some res =>
        let h1 := CallPrepareSource (pipeline self) refs (frame_num a) res
                    (device_id self) :: h0 in
        match prepare_source (interactions h0) (pipeline self) refs (frame_num a)
                res (device_id self) with
        | Raise e => (Raise e, st h1)
        | Return src =>
            let h2 := CallGenerate (pipeline self) (prompt a) src res (frame_num a)
                        (sample_shift a) (sample_solver a) (sample_steps a)
                        (guide_scale a) seed (offload_model a)
                        :: LogInfo "Generating video..." :: h1 in
            match pipeline_generate (interactions h1) (pipeline self) (prompt a) src
                    res (frame_num a) (sample_shift a) (sample_solver a)
                    (sample_steps a) (guide_scale a) seed (offload_model a) with
            | Raise e => (Raise e, st h2)
            | Return video =>
                let file :=
                  match save_file a with
                  | Some f => f
                  | None =>
                      task self +:+ "_" +:+ size a +:+ "_"
                        +:+ take 50 (replace "/" "_" (replace " " "_" (prompt a)))
                        +:+ "_" +:+ now_strftime (interactions h2) +:+ ".mp4"
                  end in
                let h3 := LogInfo ("Saving generated video to " +:+ file)
                            :: match save_file a with
                               | Some _ => h2
                               | None => CallNow :: h2
                               end in
                let h4 := CallCacheVideo video file (sample_fps (cfg self)) :: h3 in
                match cache_video (interactions h3) video file
                        (sample_fps (cfg self)) with
                | Raise e => (Raise e, st h4)
                | Return _ =>
                    (Return file, st (LogInfo "✓ Video generation complete!" :: h4))
                end
            end
        end
    end.
Proof.
  cbv zeta.
  unfold Fast.generate, bind, getitem, randint, logging_info, emit, call, ret, raise,
    interactions.
  cbn [fst snd heap MODEL_CACHE trace].
  destruct (base_seed a <? 0)%Z; destruct (truthy_opt (src_ref_images a));
    cbn [fst snd heap MODEL_CACHE trace app List.filter is_logging negb];
    (destruct (SIZE_CONFIGS !! size a) as [res|];
     cbn [fst snd heap MODEL_CACHE trace app List.filter is_logging negb];
     [|reflexivity]);
    (match goal with
     | |- context [prepare_source ?h ?p ?r ?f ?z ?d] =>
         destruct (prepare_source h p r f z d) as [src|]
     end; cbn [fst snd heap MODEL_CACHE trace app List.filter is_logging negb];
     [|reflexivity]);
    (match goal with
     | |- context [pipeline_generate ?h ?p ?t ?x ?z ?f ?sh ?so ?st ?gu ?se ?o] =>
         destruct (pipeline_generate h p t x z f sh so st gu se o) as [video|]
     end; cbn [fst snd heap MODEL_CACHE trace app List.filter is_logging negb];
     [|reflexivity]);
    destruct (save_file a);
    cbn [fst snd heap MODEL_CACHE trace app List.filter is_logging negb];
    (match goal with
     | |- context [cache_video ?h ?v ?f ?r] => destruct (cache_video h v f r)
     end; reflexivity).
Qed.

Ltac by_stages self a s :=
  rewrite (generate_stages self a s); cbv zeta;
  destruct (SIZE_CONFIGS !! size a) as [res|] eqn:Hsize;
  [ destruct (prepare_source _ (pipeline self) _ (frame_num a) res (device_id self))
      as [src|] eqn:Hprep;
    [ destruct (pipeline_generate _ (pipeline self) (prompt a) src res _ _ _ _ _ _ _)
        as [video|] eqn:Hgen;
      [ destruct (cache_video _ video _ _) as [[]|] eqn:Hsave | ]
    | ]
  | ].

Ltac front_of t base :=
  lazymatch t with
  | base => constr:(@nil (@event Config Pipeline Tensor Float))
  | ?x :: ?t' => let r := front_of t' base in constr:(x :: r)
  end.

(** X11. [generate] never touches the cache or the generator objects. *)
Theorem generate_leaves_cache_alone
    (self : WanFastGenerator) (a : GenerateArgs) (s : state) :
  heap (generate self a s).2 = heap s /\
  MODEL_CACHE (generate self a s).2 = MODEL_CACHE s.
Proof. by_stages self a s; split; reflexivity. Qed.

Lemma generate_returns_saved_path_aux
    (self : WanFastGenerator) (a : GenerateArgs) (s s' : state) (f : str) :
  generate self a s = (Return f, s') ->
  (forall f0, save_file a = Some f0 -> f = f0) /\
  exists video,
    List.filter is_cache_video (trace s')
    = CallCacheVideo video f (sample_fps (cfg self))
        :: List.filter is_cache_video (trace s).
Proof.
  by_stages self a s; intros [= <- <-]. split.
  - intros f0 Hf. by rewrite Hf.
  - exists video. cbn [trace List.filter is_cache_video].
    destruct (save_file a); cbn [List.filter is_cache_video];
      destruct (base_seed a <? 0)%Z; destruct (truthy_opt (src_ref_images a));
      reflexivity.
Qed.

(** X12. When [generate] returns a path, the video was saved exactly once,
    to that path, at the frame rate of the generator's configuration;
    a path given by the caller is returned as it is. *)
Theorem generate_returns_saved_path
    (self : WanFastGenerator) (a : GenerateArgs) (s s' : state) (f : str) :
  generate self a s = (Return f, s') ->
  (forall f0, save_file a = Some f0 -> f = f0) /\
  exists video,
    List.filter is_cache_video (trace s')
    = CallCacheVideo video f (sample_fps (cfg self))
        :: List.filter is_cache_video (trace s).
Proof. apply generate_returns_saved_path_aux. Qed.

(** X13. The name made up when no path is given: task, size, the first
    50 characters of the prompt with every space and slash turned into
    an underscore, the time stamp the clock returned, and the extension
    [.mp4]. *)
Theorem default_file_name_is_sanitized
    (self : WanFastGenerator) (a : GenerateArgs) (s s' : state) (f : str) :
  save_file a = None ->
  generate self a s = (Return f, s') ->
  let part := map_chars sanitized (take 50 (prompt a)) in
  (exists h,
     f = task self +:+ "_" +:+ size a +:+ "_" +:+ part +:+ "_" +:+ now_strftime h
           +:+ ".mp4") /\
  len part = Nat.min 50 (len (prompt a)) /\ lacks " " part /\ lacks "/" part.
Proof.
  intros Hnone. by_stages self a s; intros [= <- <-]. rewrite Hnone.
  cbv zeta. rewrite <- TextFacts.sanitized_prefix.
  split; [eexists; reflexivity|]. split; [|split].
  - rewrite TextFacts.sanitized_prefix, TextFacts.len_map_chars.
    apply TextFacts.len_take.
  - apply TextFacts.lacks_take, TextFacts.lacks_replace; [done|done|].
    by apply TextFacts.replace_removes.
  - apply TextFacts.lacks_take. by apply TextFacts.replace_removes.
Qed.

(** X14. The video is saved at most once, and only after both pipeline
    calls were made; a run that returns has saved it. *)
Theorem generate_saves_after_pipeline
    (self : WanFastGenerator) (a : GenerateArgs) (s : state) :
  exists new,
    trace (generate self a s).2 = new ++ trace s /\
    let saves := length (List.filter is_cache_video new) in
    let works := length (List.filter is_pipeline_work new) in
    saves <= 1 /\ works <= 2 /\ (saves = 1 -> works = 2) /\
    (forall f, (generate self a s).1 = Return f -> saves = 1).
Proof.
  by_stages self a s;
    destruct (base_seed a <? 0)%Z; destruct (truthy_opt (src_ref_images a));
    destruct (save_file a);
    cbn [fst snd trace app];
    lazymatch goal with
    | |- exists new, ?t = new ++ ?base /\ _ =>
        let r := front_of t base in exists r
    end;
    (split; [reflexivity|]); cbn; repeat split; try lia; try done.
Qed.

(** X15. An empty [src_ref_images] is treated as a missing one. *)
Theorem empty_ref_images_is_none
    (self : WanFastGenerator) (a : GenerateArgs) (s : state) :
  src_ref_images a = Some EmptyStr ->
  generate self a s =
    generate self
      (mkGenerateArgs (prompt a) None (save_file a) (size a) (frame_num a)
         (sample_steps a) (sample_shift a) (sample_solver a) (guide_scale a)
         (base_seed a) (offload_model a)) s.
Proof.
  intros H. rewrite !generate_stages. cbv zeta.
  cbn [prompt src_ref_images save_file size frame_num sample_steps sample_shift
       sample_solver guide_scale base_seed offload_model].
  rewrite H. reflexivity.
Qed.

(** X16. The reference images handed to [prepare_source] are the pieces of
    a non-empty [src_ref_images] between its commas, in one inner list,
    and nothing when it is missing or empty. *)
Theorem ref_images_are_the_comma_pieces
    (self : WanFastGenerator) (a : GenerateArgs) (s : state)
    (p : Pipeline) (refs : option (list (list str))) (frames : Z)
    (wh : Z * Z) (dev : Z) :
  List.In (CallPrepareSource p refs frames wh dev)
    (List.filter is_pipeline_work (trace (generate self a s).2)) ->
  List.In (CallPrepareSource p refs frames wh dev)
    (List.filter is_pipeline_work (trace s)) \/
  match refs with
  | None => src_ref_images a = None \/ src_ref_images a = Some EmptyStr
  | Some [pieces] =>
      src_ref_images a = Some (join "," pieces) /\ pieces <> [] /\
      Forall (lacks ",") pieces
  | Some _ => False
  end.
Proof.
  assert (match (if truthy_opt (src_ref_images a)
                 then Some [split "," (format_opt (src_ref_images a))] else None) with
          | None => src_ref_images a = None \/ src_ref_images a = Some EmptyStr
          | Some [pieces] =>
              src_ref_images a = Some (join "," pieces) /\ pieces <> [] /\
              Forall (lacks ",") pieces
          | Some _ => False
          end) as Hrefs.
  { destruct (src_ref_images a) as [[|c r]|]; cbn [truthy_opt truthy format_opt]; auto.
    split; [by rewrite TextFacts.join_split|].
    split; [apply TextFacts.split_nonempty|]. by apply TextFacts.split_pieces_free. }
  by_stages self a s;
    destruct (base_seed a <? 0)%Z; destruct (truthy_opt (src_ref_images a));
    destruct (save_file a);
    cbn [snd trace app List.filter is_pipeline_work List.In];
    intros Hin; repeat (destruct Hin as [Hin|Hin]; [try discriminate Hin|]);
    try (by left);
    try (injection Hin as <- <- <- <- <-; by right).
Qed.

(** X17. [generate] raises nothing of its own but the [KeyError] of an
    unknown size: any other exception was raised by one of the three
    collaborators and is passed on as it is. *)
Theorem generate_passes_failures_on
    (self : WanFastGenerator) (a : GenerateArgs) (s : state) (e : exn) :
  (generate self a s).1 = Raise e ->
  (SIZE_CONFIGS !! size a = None /\ e = KeyError (size a)) \/
  (exists h refs res,
     prepare_source h (pipeline self) refs (frame_num a) res (device_id self)
     = Raise e) \/
  (exists h src res seed,
     pipeline_generate h (pipeline self) (prompt a) src res (frame_num a)
       (sample_shift a) (sample_solver a) (sample_steps a) (guide_scale a) seed
       (offload_model a) = Raise e) \/
  (exists h video file, cache_video h video file (sample_fps (cfg self)) = Raise e).
Proof.
  by_stages self a s; cbn [fst]; intros [= <-]; eauto 10.
Qed.

End Facts.
End GenerateFacts.

(** ** The command line of [generate_integrated_fast.py] *)

Module FastCliFacts.
Import Py Fast Predicates.

Section Facts.
Context {Config Pipeline Tensor Float : Type}.
Variable sample_fps : Config -> Z.
Variable WAN_CONFIGS : gmap str Config.
Variable SIZE_CONFIGS : gmap str (Z * Z).
Variable WanVace :
  list (@event Config Pipeline Tensor Float) ->
  Config -> option str -> Z -> outcome Pipeline.
Variable prepare_source :
  list (@event Config Pipeline Tensor Float) ->
  Pipeline -> option (list (list str)) -> Z -> Z * Z -> Z ->
  outcome (Tensor * Tensor * Tensor).
Variable pipeline_generate :
  list (@event Config Pipeline Tensor Float) ->
  Pipeline -> str -> Tensor * Tensor * Tensor -> Z * Z -> Z ->
  Float -> str -> Z -> Float -> Z -> bool -> outcome Tensor.
Variable cache_video :
  list (@event Config Pipeline Tensor Float) ->
  Tensor -> str -> Z -> outcome unit.
Variable now_strftime : list (@event Config Pipeline Tensor Float) -> str.
Variable random_draw : list (@event Config Pipeline Tensor Float) -> Z.

Local Abbreviation state := (@state Config Pipeline Tensor Float).
Local Abbreviation get_generator := (Fast.get_generator WAN_CONFIGS WanVace).
Local Abbreviation generate :=
  (Fast.generate sample_fps SIZE_CONFIGS prepare_source pipeline_generate
     cache_video now_strftime random_draw).
Local Abbreviation main :=
  (FastCli.main sample_fps WAN_CONFIGS SIZE_CONFIGS WanVace prepare_source
     pipeline_generate cache_video now_strftime random_draw).
Local Abbreviation cache_consistent := (Predicates.cache_consistent WAN_CONFIGS).
Local Abbreviation key_of args :=
  (cache_key (FastCli.task args) (Some (FastCli.ckpt_dir args)) (FastCli.device_id args)).

(** From a consistent cache [main] runs [generate] on the object its
    acquire returned. *)
Lemma main_follows_reference (args : FastCli.Args) (s s1 : state) (g : nat) :
  cache_consistent s ->
  get_generator (FastCli.task args) (Some (FastCli.ckpt_dir args))
    (FastCli.device_id args) s = (Return g, s1) ->
  exists self,
    heap s1 !! g = Some self /\
    contains "vace" (task self) = true /\
    main args s =
      match generate self (FastCli.generate_args args) s1 with
      | (Raise e, s2) => (Raise e, s2, [])
      | (Return output_file, s2) => (Return tt, s2, ["Output: " +:+ output_file])
      end.
Proof.
  intros Hs Hg.
  pose proof (CacheFacts.acquire_consistent WAN_CONFIGS WanVace (FastCli.task args)
                (Some (FastCli.ckpt_dir args)) (FastCli.device_id args) s Hs) as Hs1.
  rewrite Hg in Hs1. cbn in Hs1.
  pose proof (CacheFacts.acquire_returns_cached _ _ _ _ _ _ _ _ Hg) as Hk.
  destruct (Hs1 _ _ Hk) as (self & Ho & _ & Hv & _).
  exists self. split; [done|]. split; [done|].
  unfold FastCli.main. by rewrite Hg, Ho.
Qed.

(** X18. A task outside the VACE family that is not cached ends [main]
    with the error of the construction: nothing is printed, no pipeline
    is loaded or run, and the cache stays as it was. *)
Theorem main_rejects_other_tasks (args : FastCli.Args) (s : state) :
  contains "vace" (FastCli.task args) = false ->
  MODEL_CACHE s !! key_of args = None ->
  exists s',
    main args s =
      (Raise match WAN_CONFIGS !! FastCli.task args with
             | None => KeyError (FastCli.task args)
             | Some _ => NotImplementedError
                           ("Task " +:+ FastCli.task args
                              +:+ " not yet supported in fast mode")
             end, s', []) /\
    MODEL_CACHE s' = MODEL_CACHE s /\ heap s' = heap s /\
    constructions (trace s') = constructions (trace s) /\
    List.filter is_pipeline_work (trace s') = List.filter is_pipeline_work (trace s).
Proof.
  intros Hv Hk. unfold FastCli.main.
  rewrite (FastFacts.acquire_miss _ _ _ _ _ _ Hk).
  unfold Fast.new_WanFastGenerator, bind.
  pose proof (FastFacts.init_cases WAN_CONFIGS WanVace (FastCli.task args)
                (Some (FastCli.ckpt_dir args)) (FastCli.device_id args)
                (mkState (heap s) (MODEL_CACHE s)
                   (LogInfo "Creating new generator (first run - will be slow)"
                      :: trace s))) as Hi.
  destruct (WAN_CONFIGS !! FastCli.task args) as [cfg_|]; cbv zeta in Hi.
  - rewrite Hv in Hi. rewrite Hi. by eexists.
  - rewrite Hi. by eexists.
Qed.

(** X19. The size is looked up only after the generator was acquired: with
    an unknown size [main] still builds and caches the generator (loading
    the pipeline on a miss), and only then raises [KeyError], before any
    pipeline work, printing nothing. *)
Theorem main_checks_size_after_loading
    (args : FastCli.Args) (s s1 : state) (g : nat) :
  cache_consistent s ->
  SIZE_CONFIGS !! FastCli.size args = None ->
  get_generator (FastCli.task args) (Some (FastCli.ckpt_dir args))
    (FastCli.device_id args) s = (Return g, s1) ->
  exists s2,
    main args s = (Raise (KeyError (FastCli.size args)), s2, []) /\
    MODEL_CACHE s2 !! key_of args = Some g /\
    constructions (trace s2) =
      constructions (trace s) +
      match MODEL_CACHE s !! key_of args with None => 1 | Some _ => 0 end /\
    List.filter is_pipeline_work (trace s2) = List.filter is_pipeline_work (trace s).
Proof.
  intros Hs Hsize Hg.
  destruct (main_follows_reference args s s1 g Hs Hg) as (self & _ & _ & ->).
  rewrite GenerateFacts.generate_stages. cbv zeta.
  cbn [FastCli.generate_args size]. rewrite Hsize.
  eexists. split; [reflexivity|]. cbn [MODEL_CACHE trace].
  split; [by eapply CacheFacts.acquire_returns_cached|].
  pose proof (CacheFacts.acquire_constructions _ _ _ _ _ _ _ _ Hg) as Hc.
  destruct (CacheFacts.acquire_no_pipeline_event WAN_CONFIGS WanVace
              (FastCli.task args) (Some (FastCli.ckpt_dir args))
              (FastCli.device_id args) s) as [Hw _].
  rewrite Hg in Hw. cbn [snd] in Hw.
  rewrite <- Hc, <- Hw.
  destruct (base_seed (FastCli.generate_args args) <? 0)%Z;
    destruct (truthy_opt (src_ref_images (FastCli.generate_args args)));
    split; reflexivity.
Qed.

(** X20. When [main] returns, it has printed one line, [Output: ] followed
    by the path the video was saved to, and that path is the
    [--save_file] argument when one was given. *)
Theorem main_prints_saved_path
    (args : FastCli.Args) (s s' : state) (out : list str) :
  cache_consistent s ->
  main args s = (Return tt, s', out) ->
  exists f video fps,
    out = ["Output: " +:+ f] /\
    List.filter is_cache_video (trace s')
      = CallCacheVideo video f fps :: List.filter is_cache_video (trace s) /\
    (forall f0, FastCli.save_file args = Some f0 -> f = f0).
Proof.
  intros Hs Hm.
  destruct (get_generator (FastCli.task args) (Some (FastCli.ckpt_dir args))
              (FastCli.device_id args) s) as [[g|e] s1] eqn:Hg.
  2: { unfold FastCli.main in Hm. by rewrite Hg in Hm. }
  destruct (main_follows_reference args s s1 g Hs Hg) as (self & _ & _ & Hmain).
  rewrite Hmain in Hm.
  destruct (generate self (FastCli.generate_args args) s1) as [[f|e] s2] eqn:Hgen;
    [|done].
  injection Hm as <- <-.
  destruct (GenerateFacts.generate_returns_saved_path_aux sample_fps SIZE_CONFIGS
              prepare_source pipeline_generate cache_video now_strftime random_draw
              self _ _ _ _ Hgen) as (Hf & video & Hv).
  exists f, video, (sample_fps (cfg self)). split; [done|]. split; [|exact Hf].
  rewrite Hv. f_equal.
  destruct (CacheFacts.acquire_no_pipeline_event WAN_CONFIGS WanVace
              (FastCli.task args) (Some (FastCli.ckpt_dir args))
              (FastCli.device_id args) s) as [_ Hw].
  by rewrite Hg in Hw.
Qed.

End Facts.
End FastCliFacts.

(** ** More on the enhancement CLI *)

Module CliFacts.
Import Py FromImage.

Section Facts.
Variable path_exists : list event -> str -> bool.
Variable read_text : list event -> str -> outcome str.
Variable read_bytes : list event -> str -> outcome string.
Variable b64encode : string -> str.
Variable suffix_lower : str -> str.
Variable environ_ANTHROPIC_API_KEY : option str.
Variable messages_create : list event -> MessageRequest -> outcome str.
Variable subprocess_run : list event -> list str -> outcome Z.
Variable sys_executable : str.

Local Abbreviation generate_video_prompt_with_claude :=
  (FromImage.generate_video_prompt_with_claude read_bytes b64encode suffix_lower
     messages_create).
Local Abbreviation choose_video_prompt :=
  (FromImage.choose_video_prompt read_bytes b64encode suffix_lower messages_create).
Local Abbreviation main :=
  (FromImage.main path_exists read_text read_bytes b64encode suffix_lower
     environ_ANTHROPIC_API_KEY messages_create).
Local Abbreviation generate_video :=
  (FromImage.generate_video subprocess_run sys_executable).
Local Abbreviation build_cmd := (FromImage.build_cmd sys_executable).

(** The request built for an image, its bytes and the two texts. *)
Local Abbreviation request_for key image_path bytes r p :=
  (mkMessageRequest key "claude-3-5-sonnet-20241022" 500 (7, 10)%Z system_prompt
     (default "image/png" (media_type_map !! suffix_lower image_path))
     (b64encode bytes) (user_prompt r p)).

Ltac step_monad :=
  unfold seq; unfold bind, print, call, ret, raise, sys_exit, try_except;
  unfold interactions; cbn [fst snd List.filter is_print negb].

(** *** The media type *)

Lemma media_type_map_values (ext ty : str) :
  media_type_map !! ext = Some ty ->
  ty ∈ ["image/png"; "image/jpeg"; "image/gif"; "image/webp"].
Proof.
  unfold media_type_map. intros H. apply elem_of_list_to_map_2 in H.
  rewrite !elem_of_cons, elem_of_nil in H. rewrite !elem_of_cons.
  destruct H as [H|[H|[H|[H|[H|[]]]]]]; injection H as _ ->; auto 6.
Qed.

(** X21. Every request the client sends names one of the four image
    types of the extension table, and carries the key, the model, the
    token limit and the system prompt of the script. *)
Theorem request_names_a_supported_media_type
    (image_path r p : str) (key : option str) (h : list event)
    (req : MessageRequest) :
  MessagesCreate req ∈ (generate_video_prompt_with_claude image_path r p key h).2 ->
  MessagesCreate req ∈ h \/
  (media_type req ∈ ["image/png"; "image/jpeg"; "image/gif"; "image/webp"] /\
   api_key_used req = key /\ model req = "claude-3-5-sonnet-20241022" /\
   max_tokens req = 500%Z /\ system req = system_prompt /\
   user_text req = user_prompt r p).
Proof.
  rewrite FromImageFacts.enhance_cases.
  destruct (read_bytes _ image_path) as [bytes|e]; cbn [snd].
  2: { intros H. apply elem_of_cons in H as [H|H]; [done|by left]. }
  cbv zeta.
  assert (default "image/png" (media_type_map !! suffix_lower image_path)
            ∈ ["image/png"; "image/jpeg"; "image/gif"; "image/webp"]) as Hty.
  { destruct (media_type_map !! suffix_lower image_path) as [ty|] eqn:E.
    - by apply media_type_map_values in E.
    - cbn. rewrite elem_of_cons. by left. }
  destruct (messages_create _ _) as [t|e]; cbn [snd]; intros H;
    apply elem_of_cons in H as [[= ->]|H];
    try (right; by repeat split);
    apply elem_of_cons in H as [H|H]; try done; by left.
Qed.

(** X22. The client sends at most one request, and only for an image it
    could read: either no request is added to the log, or the bytes were
    read and the one request added is the one built from them. *)
Theorem request_is_sent_once_after_reading
    (image_path r p : str) (key : option str) (h : list event) :
  let sent l := List.filter is_network_call l in
  sent (generate_video_prompt_with_claude image_path r p key h).2 = sent h \/
  exists bytes,
    read_bytes (interactions h) image_path = Return bytes /\
    sent (generate_video_prompt_with_claude image_path r p key h).2
    = MessagesCreate (request_for key image_path bytes r p) :: sent h.
Proof.
  cbv zeta. rewrite FromImageFacts.enhance_cases.
  destruct (read_bytes _ image_path) as [bytes|e]; [|by left].
  right. exists bytes. split; [done|]. cbv zeta.
  by destruct (messages_create _ _).
Qed.

(** *** The invoker *)

(** X23. [generate_video] returns exactly when the child's return code
    is 0. *)
Theorem generate_video_returns_iff_child_succeeds
    (prompt_ task_ size_ ckpt_dir_ : str) (output_dir_ : option str)
    (additional_args : option (list str)) (h : list event) :
  (generate_video prompt_ task_ size_ ckpt_dir_ output_dir_ additional_args h).1
    = Return tt <->
  subprocess_run (interactions h)
    (build_cmd prompt_ task_ size_ ckpt_dir_ output_dir_ additional_args)
    = Return 0%Z.
Proof.
  rewrite FromImageFacts.generate_video_cases. cbv zeta.
  destruct (subprocess_run _ _) as [c|e]; [|done].
  destruct (decide (c <> 0%Z)) as [Hc|Hc]; cbn [fst].
  - split; [done|]. by intros [= ->].
  - split; [|done]. intros _. f_equal. lia.
Qed.

(** *** [main] *)

(** What the [try] block lets through: an exception that does not derive
    from [Exception], raised while reading the image or by the
    endpoint. *)
Lemma choose_raises (args : Args) (key : option str) (data : ReasoningData)
    (h : list event) (e : exn) :
  (choose_video_prompt args key data h).1 = Raise e ->
  is_Exception e = false /\
  ((exists h' p, read_bytes h' p = Raise e) \/
   (exists h' req, messages_create h' req = Raise e)).
Proof.
  unfold FromImage.choose_video_prompt. destruct (skip_claude args); step_monad;
    [done|].
  rewrite FromImageFacts.enhance_cases.
  destruct (read_bytes _ (image args)) as [bytes|e1] eqn:Hb; cbn [fst snd].
  - cbv zeta. destruct (messages_create _ _) as [t|e2] eqn:Hm; cbn [fst snd]; [done|].
    destruct (is_Exception e2) eqn:Hx; cbn [fst]; [done|].
    intros [= <-]. eauto 6.
  - destruct (is_Exception e1) eqn:Hx; cbn [fst]; [done|].
    intros [= <-]. eauto 6.
Qed.

(** X24. Whatever [main] raises is [SystemExit(1)] from its checks, the
    failure of reading the text file, or an exception outside
    [Exception] from the enhancement step: no [Exception] raised there
    ever leaves [main]. *)
Theorem main_failures_are_classified
    (args : Args) (unknown_args : list str) (h : list event) (e : exn) :
  (main args unknown_args h).1 = Raise e ->
  e = SystemExit 1 \/
  (exists h', read_text h' (text args) = Raise e) \/
  (is_Exception e = false /\
   ((exists h' p, read_bytes h' p = Raise e) \/
    (exists h' req, messages_create h' req = Raise e))).
Proof.
  unfold FromImage.main, read_reasoning_file; step_monad.
  destruct (path_exists _ (image args));
    cbn [negb fst snd List.filter is_print]; [|intros [= <-]; by left].
  destruct (path_exists _ (text args));
    cbn [negb fst snd List.filter is_print]; [|intros [= <-]; by left].
  destruct (negb _ && negb _); cbn [fst]; [intros [= <-]; by left|].
  destruct (read_text _ (text args)) as [content|e0] eqn:Hr; cbn [fst snd].
  2: { intros [= <-]. right. left. eauto. }
  match goal with
  | |- context [choose_video_prompt ?a ?k ?d ?h0] =>
      pose proof (choose_raises a k d h0) as Hc;
      destruct (choose_video_prompt a k d h0) as [[vp|e1] h1]
  end; cbn [fst snd] in *; [done|].
  intros [= <-]. right. right. by apply Hc.
Qed.

(** X25. With [--skip-claude] no image is read and no request is sent,
    with or without an API key; the final prompt is the original prompt
    of the parsed file. *)
Theorem main_skip_claude_makes_no_request
    (args : Args) (unknown_args : list str) (h : list event) (doc : str) :
  let checked := PathExists (text args) :: PathExists (image args) :: interactions h in
  path_exists (interactions h) (image args) = true ->
  path_exists (PathExists (image args) :: interactions h) (text args) = true ->
  skip_claude args = true ->
  read_text checked (text args) = Return doc ->
  (main args unknown_args h).1 = Return (original_prompt (split_reasoning doc)) /\
  interactions (main args unknown_args h).2 = ReadText (text args) :: checked.
Proof.
  intros checked Himg Htxt Hskip Hread. subst checked.
  unfold interactions in Himg, Htxt, Hread.
  unfold FromImage.main, read_reasoning_file, FromImage.choose_video_prompt.
  step_monad. rewrite Himg. cbn [negb fst snd List.filter is_print].
  rewrite Htxt. cbn [negb fst snd List.filter is_print].
  rewrite Hskip, andb_false_r. cbn [negb fst snd List.filter is_print].
  rewrite Hread.
  cbn [negb fst snd List.filter is_print]. by split.
Qed.


(** X27. An exception outside [Exception] raised by the enhancement call
    (a keyboard interrupt, say) is not caught: [main] ends with it. *)
Theorem main_lets_interrupts_through
    (args : Args) (unknown_args : list str) (h : list event)
    (doc : str) (e : exn) :
  let key := or_else (api_key args) environ_ANTHROPIC_API_KEY in
  let data := split_reasoning doc in
  let checked := PathExists (text args) :: PathExists (image args) :: interactions h in
  path_exists (interactions h) (image args) = true ->
  path_exists (PathExists (image args) :: interactions h) (text args) = true ->
  truthy_opt key = true ->
  skip_claude args = false ->
  read_text checked (text args) = Return doc ->
  (generate_video_prompt_with_claude (image args) (reasoning data)
     (original_prompt data) key (ReadText (text args) :: checked)).1 = Raise e ->
  is_Exception e = false ->
  (main args unknown_args h).1 = Raise e.
Proof.
  intros key data checked Himg Htxt Hkey Hskip Hread He Hex.
  subst key data checked.
  unfold interactions in Himg, Htxt, Hread, He.
  unfold FromImage.main, read_reasoning_file, FromImage.choose_video_prompt.
  step_monad. rewrite Himg. cbn [negb fst snd List.filter is_print].
  rewrite Htxt. cbn [negb fst snd List.filter is_print].
  rewrite Hkey, Hskip. cbn [negb andb fst snd List.filter is_print]. rewrite Hread.
  cbn [negb fst snd List.filter is_print].
  match goal with
  | |- context [generate_video_prompt_with_claude ?i ?r ?p ?k ?h0] =>
      pose proof (FromImageFacts.enhance_outcome read_bytes b64encode suffix_lower
                    messages_create i r p k h0) as Ho;
      destruct (generate_video_prompt_with_claude i r p k h0) as [[vp|e'] h1]
  end.
  all: unfold interactions in Ho; cbn [fst snd List.filter is_print negb] in Ho.
  all: rewrite He in Ho; cbn [fst] in Ho.
  - discriminate Ho.
  - injection Ho as ->. by rewrite Hex.
Qed.

(** X28. A text file that exists but cannot be read ends [main] with the
    reader's exception, before the image is read or a request is
    sent. *)
Theorem main_stops_on_unreadable_text
    (args : Args) (unknown_args : list str) (h : list event) (e : exn) :
  let checked := PathExists (text args) :: PathExists (image args) :: interactions h in
  path_exists (interactions h) (image args) = true ->
  path_exists (PathExists (image args) :: interactions h) (text args) = true ->
  truthy_opt (or_else (api_key args) environ_ANTHROPIC_API_KEY) = true \/
    skip_claude args = true ->
  read_text checked (text args) = Raise e ->
  (main args unknown_args h).1 = Raise e /\
  interactions (main args unknown_args h).2 = ReadText (text args) :: checked.
Proof.
  intros checked Himg Htxt Hgo Hread. subst checked.
  unfold interactions in Himg, Htxt, Hread.
  unfold FromImage.main, read_reasoning_file.
  step_monad. rewrite Himg. cbn [negb fst snd List.filter is_print].
  rewrite Htxt. cbn [negb fst snd List.filter is_print].
  assert (negb (truthy_opt (or_else (api_key args) environ_ANTHROPIC_API_KEY))
            && negb (skip_claude args) = false) as ->.
  { destruct Hgo as [-> | ->]; [done|]. by rewrite andb_false_r. }
  cbn [negb fst snd List.filter is_print]. rewrite Hread. by split.
Qed.

End Facts.
End CliFacts.

(** ** The further properties on the concrete collaborators *)

Module MoreScenarios.
Import Py.

(** *** The parser *)

Lemma sample_document_fields_are_trimmed :
  let r := FromImage.split_reasoning Samples.document in
  strip (FromImage.reasoning r) = FromImage.reasoning r /\
  strip (FromImage.original_prompt r) = FromImage.original_prompt r.
Proof.
  intros r. apply (ParserMore.split_reasoning_fields_trimmed Samples.document).
  reflexivity.
Defined.

Lemma text_without_marker_splits_in_halves :
  let r := FromImage.split_reasoning "café crème" in
  FromImage.reasoning r +:+ FromImage.original_prompt r = "café crème" /\
  len (FromImage.reasoning r) = 10 / 2 /\
  len (FromImage.original_prompt r) = 10 - 10 / 2.
Proof.
  intros r. apply (ParserMore.split_reasoning_halves "café crème").
  reflexivity.
Defined.

Lemma sample_document_prompt_is_one_line :
  let after := FromImage.nl +:+ "Generating image with prompt:" +:+ FromImage.nl
                 +:+ "Cartoon fox in snow" +:+ FromImage.nl in
  FromImage.original_prompt (FromImage.split_reasoning Samples.document)
    = strip (hd EmptyStr (split FromImage.END_OF_REASONING after)) \/
  contains FromImage.nl
    (FromImage.original_prompt (FromImage.split_reasoning Samples.document)) = false.
Proof.
  intros after.
  apply (ParserMore.cue_prompt_is_one_line Samples.document
           ("Plan the scene." +:+ FromImage.nl) after).
  reflexivity.
Defined.

(** *** The generator cache *)

Lemma fresh_is_consistent :
  Predicates.cache_consistent Samples.WAN_CONFIGS Samples.fresh.
Proof. intros k g H. cbn in H. by rewrite lookup_empty in H. Qed.

Lemma first_acquire_keeps_cache_consistent :
  Predicates.cache_consistent Samples.WAN_CONFIGS
    (Fast.get_generator Samples.WAN_CONFIGS Samples.WanVace_loads
       "vace-1.3B" (Some "./Wan2.1-VACE-1.3B") 0 Samples.fresh).2.
Proof.
  apply CacheFacts.get_generator_keeps_cache_consistent, fresh_is_consistent.
Defined.

Lemma first_acquire_returns_live_object :
  let s' := (Fast.get_generator Samples.WAN_CONFIGS Samples.WanVace_loads
               "vace-1.3B" (Some "./Wan2.1-VACE-1.3B") 0 Samples.fresh).2 in
  exists obj,
    Fast.heap s' !! 0 = Some obj /\
    Fast.MODEL_CACHE s' !! Fast.cache_key "vace-1.3B" (Some "./Wan2.1-VACE-1.3B") 0
      = Some 0 /\
    Fast.cache_key (Fast.task obj) (Fast.ckpt_dir obj) (Fast.device_id obj)
      = Fast.cache_key "vace-1.3B" (Some "./Wan2.1-VACE-1.3B") 0 /\
    contains "vace" (Fast.task obj) = true.
Proof.
  intros s'.
  apply (CacheFacts.get_generator_returns_live_object
           Samples.WAN_CONFIGS Samples.WanVace_loads
           "vace-1.3B" (Some "./Wan2.1-VACE-1.3B") 0 Samples.fresh s' 0
           fresh_is_consistent).
  reflexivity.
Defined.

Lemma two_checkpoints_get_two_instances :
  let s1 := (Fast.get_generator Samples.WAN_CONFIGS Samples.WanVace_loads
               "vace-1.3B" (Some "./first") 0 Samples.fresh).2 in
  let second := Fast.get_generator Samples.WAN_CONFIGS Samples.WanVace_loads
                  "vace-1.3B" (Some "./second") 0 s1 in
  exists g2, second.1 = Return g2 /\ 0 <> g2.
Proof.
  intros s1 second. exists 1. split; [reflexivity|].
  apply (CacheFacts.distinct_keys_get_distinct_instances
           Samples.WAN_CONFIGS Samples.WanVace_loads
           "vace-1.3B" "vace-1.3B" (Some "./first") (Some "./second") 0 0
           Samples.fresh s1 second.2 0 1 fresh_is_consistent);
    [vm_compute; reflexivity|vm_compute; reflexivity|].
  vm_compute. discriminate.
Defined.

(** A missing checkpoint directory and one named [None] print alike, so
    the key cannot tell them apart. *)
Lemma equal_keys_of_plain_tasks :
  "vace-1.3B" = "vace-1.3B" /\
  format_opt None = format_opt (Some "None") /\ 0%Z = 0%Z.
Proof.
  apply (CacheFacts.cache_key_injective_on_plain_tasks
           "vace-1.3B" "vace-1.3B" None (Some "None") 0 0);
    reflexivity.
Defined.

(** *** The generation facade *)

Lemma given_path_is_saved_once :
  let run := Fast.generate id Samples.SIZE_CONFIGS Samples.prepare_source
               Samples.pipeline_generate Samples.cache_video Samples.now_strftime
               Samples.random_draw Samples.vace_generator
               (Samples.request "832*480" 42) Samples.fresh in
  exists video,
    List.filter Predicates.is_cache_video (Fast.trace run.2)
    = [Fast.CallCacheVideo video "out.mp4" 16].
Proof.
  intros run.
  destruct (GenerateFacts.generate_returns_saved_path id Samples.SIZE_CONFIGS
              Samples.prepare_source Samples.pipeline_generate Samples.cache_video
              Samples.now_strftime Samples.random_draw Samples.vace_generator
              (Samples.request "832*480" 42) Samples.fresh run.2 "out.mp4" eq_refl)
    as [_ H].
  exact H.
Defined.

Lemma made_up_name_of_a_prompt_with_a_slash :
  (exists h,
     "vace-1.3B_832*480_un_café___Paris_20250101_120000.mp4"
     = "vace-1.3B" +:+ "_" +:+ "832*480" +:+ "_"
         +:+ Predicates.map_chars Predicates.sanitized (take 50 "un café / Paris") +:+ "_"
         +:+ Samples.now_strftime h +:+ ".mp4") /\
  len (Predicates.map_chars Predicates.sanitized (take 50 "un café / Paris")) = Nat.min 50 15.
Proof.
  destruct (GenerateFacts.default_file_name_is_sanitized id Samples.SIZE_CONFIGS
              Samples.prepare_source Samples.pipeline_generate Samples.cache_video
              Samples.now_strftime Samples.random_draw Samples.vace_generator
              MoreSamples.unnamed_request Samples.fresh
              (Fast.generate id Samples.SIZE_CONFIGS Samples.prepare_source
                 Samples.pipeline_generate Samples.cache_video Samples.now_strftime
                 Samples.random_draw Samples.vace_generator
                 MoreSamples.unnamed_request Samples.fresh).2
              "vace-1.3B_832*480_un_café___Paris_20250101_120000.mp4"
              eq_refl eq_refl)
    as (Hf & Hl & _).
  split; [exact Hf|exact Hl].
Defined.

Lemma empty_ref_images_run_like_none :
  Fast.generate id Samples.SIZE_CONFIGS Samples.prepare_source
    Samples.pipeline_generate Samples.cache_video Samples.now_strftime
    Samples.random_draw Samples.vace_generator
    (MoreSamples.request_with_refs EmptyStr) Samples.fresh
  = Fast.generate id Samples.SIZE_CONFIGS Samples.prepare_source
      Samples.pipeline_generate Samples.cache_video Samples.now_strftime
      Samples.random_draw Samples.vace_generator
      (Fast.mkGenerateArgs "a fox" None (Some "out.mp4") "832*480" 41%Z 25%Z 16%Z
         "unipc" 5%Z 42%Z true) Samples.fresh.
Proof.
  apply (GenerateFacts.empty_ref_images_is_none id Samples.SIZE_CONFIGS
           Samples.prepare_source Samples.pipeline_generate Samples.cache_video
           Samples.now_strftime Samples.random_draw Samples.vace_generator
           (MoreSamples.request_with_refs EmptyStr) Samples.fresh).
  reflexivity.
Defined.

Lemma two_ref_images_are_two_pieces :
  List.In
    (Fast.CallPrepareSource "./Wan2.1-VACE-1.3B" (Some [["a.png"; "b.png"]]) 41%Z
       (832, 480)%Z 0%Z)
    (List.filter Fast.is_pipeline_work (Fast.trace Samples.fresh)) \/
  (Some "a.png,b.png" = Some (join "," ["a.png"; "b.png"]) /\
   ["a.png"; "b.png"] <> [] /\
   Forall (Predicates.lacks ",") ["a.png"; "b.png"]).
Proof.
  apply (GenerateFacts.ref_images_are_the_comma_pieces id Samples.SIZE_CONFIGS
           Samples.prepare_source Samples.pipeline_generate Samples.cache_video
           Samples.now_strftime Samples.random_draw Samples.vace_generator
           (MoreSamples.request_with_refs "a.png,b.png") Samples.fresh
           "./Wan2.1-VACE-1.3B" (Some [["a.png"; "b.png"]]) 41%Z (832, 480)%Z 0%Z).
  vm_compute. right. left. reflexivity.
Defined.

Lemma unknown_size_is_the_only_own_failure :
  (Samples.SIZE_CONFIGS !! "640*360" = None /\
   KeyError "640*360" = KeyError "640*360") \/
  (exists h refs res,
     Samples.prepare_source h "./Wan2.1-VACE-1.3B" refs 41%Z res 0%Z
     = Raise (KeyError "640*360")) \/
  (exists h src res seed,
     Samples.pipeline_generate h "./Wan2.1-VACE-1.3B" "a fox" src res 41%Z 16%Z
       "unipc" 25%Z 5%Z seed true = Raise (KeyError "640*360")) \/
  (exists h video file,
     Samples.cache_video h video file 16%Z = Raise (KeyError "640*360")).
Proof.
  apply (GenerateFacts.generate_passes_failures_on id Samples.SIZE_CONFIGS
           Samples.prepare_source Samples.pipeline_generate Samples.cache_video
           Samples.now_strftime Samples.random_draw Samples.vace_generator
           (Samples.request "640*360" 42) Samples.fresh (KeyError "640*360")).
  reflexivity.
Defined.

(** *** The command line of [generate_integrated_fast.py] *)

Lemma fast_main_rejects_t2v :
  exists s',
    FastCli.main id Samples.WAN_CONFIGS Samples.SIZE_CONFIGS Samples.WanVace_loads
      Samples.prepare_source Samples.pipeline_generate Samples.cache_video
      Samples.now_strftime Samples.random_draw
      (MoreSamples.fast_args "t2v-14B" "832*480") Samples.fresh
    = (Raise (NotImplementedError "Task t2v-14B not yet supported in fast mode"),
       s', []) /\
    Fast.MODEL_CACHE s' = ∅ /\ Fast.heap s' = [].
Proof.
  destruct (FastCliFacts.main_rejects_other_tasks id Samples.WAN_CONFIGS
              Samples.SIZE_CONFIGS Samples.WanVace_loads
              Samples.prepare_source Samples.pipeline_generate Samples.cache_video
              Samples.now_strftime Samples.random_draw
              (MoreSamples.fast_args "t2v-14B" "832*480") Samples.fresh
              eq_refl eq_refl)
    as (s' & H & Hc & Hh & _).
  exists s'. split; [exact H|]. split; [exact Hc|exact Hh].
Defined.

Lemma fast_main_loads_before_rejecting_the_size :
  exists s2,
    FastCli.main id Samples.WAN_CONFIGS Samples.SIZE_CONFIGS Samples.WanVace_loads
      Samples.prepare_source Samples.pipeline_generate Samples.cache_video
      Samples.now_strftime Samples.random_draw
      (MoreSamples.fast_args "vace-1.3B" "640*360") Samples.fresh
    = (Raise (KeyError "640*360"), s2, []) /\
    Fast.constructions (Fast.trace s2) = 1 /\
    List.filter Fast.is_pipeline_work (Fast.trace s2) = [].
Proof.
  destruct (FastCliFacts.main_checks_size_after_loading id Samples.WAN_CONFIGS
              Samples.SIZE_CONFIGS Samples.WanVace_loads
              Samples.prepare_source Samples.pipeline_generate Samples.cache_video
              Samples.now_strftime Samples.random_draw
              (MoreSamples.fast_args "vace-1.3B" "640*360") Samples.fresh
              (Fast.get_generator Samples.WAN_CONFIGS Samples.WanVace_loads
                 "vace-1.3B" (Some "./Wan2.1-VACE-1.3B") 0 Samples.fresh).2 0
              fresh_is_consistent eq_refl eq_refl)
    as (s2 & H & _ & Hc & Hw).
  exists s2. split; [exact H|]. split; [exact Hc|exact Hw].
Defined.

Lemma fast_main_prints_the_given_path :
  let run := FastCli.main id Samples.WAN_CONFIGS Samples.SIZE_CONFIGS
               Samples.WanVace_loads Samples.prepare_source
               Samples.pipeline_generate Samples.cache_video
               Samples.now_strftime Samples.random_draw
               (MoreSamples.fast_args "vace-1.3B" "832*480") Samples.fresh in
  exists video fps,
    run.2 = ["Output: out.mp4"] /\
    List.filter Predicates.is_cache_video (Fast.trace run.1.2)
    = [Fast.CallCacheVideo video "out.mp4" fps].
Proof.
  intros run.
  assert (run = (Return tt, run.1.2, run.2)) as Hrun by (vm_compute; reflexivity).
  destruct (FastCliFacts.main_prints_saved_path id Samples.WAN_CONFIGS
              Samples.SIZE_CONFIGS Samples.WanVace_loads
              Samples.prepare_source Samples.pipeline_generate Samples.cache_video
              Samples.now_strftime Samples.random_draw
              (MoreSamples.fast_args "vace-1.3B" "832*480") Samples.fresh
              run.1.2 run.2 fresh_is_consistent Hrun)
    as (f & video & fps & Hout & Hv & Hf).
  exists video, fps. rewrite (Hf "out.mp4" eq_refl) in Hv. split; [reflexivity|exact Hv].
Defined.

(** *** The enhancement CLI *)

Lemma png_request_names_png :
  let req := FromImage.mkMessageRequest (Some "sk-test") "claude-3-5-sonnet-20241022"
               500 (7, 10)%Z FromImage.system_prompt "image/png" "UE5H"
               (FromImage.user_prompt "Plan the scene." "Cartoon fox in snow") in
  FromImage.MessagesCreate req ∈ @nil FromImage.event \/
  (FromImage.media_type req ∈ ["image/png"; "image/jpeg"; "image/gif"; "image/webp"] /\
   FromImage.api_key_used req = Some "sk-test" /\
   FromImage.model req = "claude-3-5-sonnet-20241022" /\
   FromImage.max_tokens req = 500%Z /\
   FromImage.system req = FromImage.system_prompt /\
   FromImage.user_text req
     = FromImage.user_prompt "Plan the scene." "Cartoon fox in snow").
Proof.
  intros req.
  apply (CliFacts.request_names_a_supported_media_type Samples.read_image
           Samples.b64encode Samples.suffix_lower Samples.endpoint_down
           "generated_image.png" "Plan the scene." "Cartoon fox in snow"
           (Some "sk-test") [] req).
  constructor.
Defined.

Lemma interrupt_is_classified :
  KeyboardInterrupt = SystemExit 1 \/
  (exists h',
     Samples.read_document h' (FromImage.text Samples.cli_args)
     = Raise KeyboardInterrupt) \/
  (is_Exception KeyboardInterrupt = false /\
   ((exists h' p, Samples.read_image h' p = Raise KeyboardInterrupt) \/
    (exists h' req, MoreSamples.endpoint_interrupted h' req = Raise KeyboardInterrupt))).
Proof.
  apply (CliFacts.main_failures_are_classified Samples.every_file_exists
           Samples.read_document Samples.read_image Samples.b64encode
           Samples.suffix_lower (Some "sk-test") MoreSamples.endpoint_interrupted
           Samples.cli_args [] [] KeyboardInterrupt).
  reflexivity.
Defined.

Lemma skip_claude_without_key_keeps_the_prompt :
  let run := FromImage.main Samples.every_file_exists Samples.read_document
               Samples.read_image Samples.b64encode Samples.suffix_lower
               None Samples.endpoint_down MoreSamples.skipping_args [] [] in
  run.1 = Return "Cartoon fox in snow" /\
  List.filter FromImage.is_network_call run.2 = [].
Proof.
  intros run.
  destruct (CliFacts.main_skip_claude_makes_no_request Samples.every_file_exists
              Samples.read_document Samples.read_image Samples.b64encode
              Samples.suffix_lower None Samples.endpoint_down
              MoreSamples.skipping_args [] [] Samples.document
              eq_refl eq_refl eq_refl eq_refl)
    as [H1 _].
  split; [exact H1|reflexivity].
Defined.


Lemma interrupted_request_ends_main :
  (FromImage.main Samples.every_file_exists Samples.read_document
     Samples.read_image Samples.b64encode Samples.suffix_lower
     (Some "sk-test") MoreSamples.endpoint_interrupted Samples.cli_args [] []).1
  = Raise KeyboardInterrupt.
Proof.
  apply (CliFacts.main_lets_interrupts_through Samples.every_file_exists
           Samples.read_document Samples.read_image Samples.b64encode
           Samples.suffix_lower (Some "sk-test") MoreSamples.endpoint_interrupted
           Samples.cli_args [] [] Samples.document KeyboardInterrupt);
    reflexivity.
Defined.

Lemma unreadable_text_ends_main :
  let run := FromImage.main Samples.every_file_exists MoreSamples.unreadable_text
               Samples.read_image Samples.b64encode Samples.suffix_lower
               (Some "sk-test") Samples.endpoint_down Samples.cli_args [] [] in
  run.1 = Raise (OtherError "UnicodeDecodeError" "invalid start byte") /\
  List.filter FromImage.is_network_call run.2 = [].
Proof.
  intros run.
  destruct (CliFacts.main_stops_on_unreadable_text Samples.every_file_exists
              MoreSamples.unreadable_text Samples.read_image Samples.b64encode
              Samples.suffix_lower (Some "sk-test") Samples.endpoint_down
              Samples.cli_args [] []
              (OtherError "UnicodeDecodeError" "invalid start byte")
              eq_refl eq_refl (or_introl eq_refl) eq_refl)
    as [H1 _].
  split; [exact H1|reflexivity].
Defined.

End MoreScenarios.
